(** * The endpoint index of the API inspector (inspector.py)

    A shallow embedding of the functions of [inspector.py] that build and
    query the endpoint index of an OpenAPI document, and the properties the
    specification states about them.

    Python values are modelled as the JSON values [json.load] produces.
    A [dict] keeps its keys in insertion order, so it is an association
    list updated in place ([dict_set]).  An uncaught exception is a
    [Raise] result; the text printed before it stays in the [world]. *)

From Stdlib Require Import String Ascii List ZArith Bool Lia Arith.
From Stdlib Require Import Sorting.Sorted Sorting.Permutation.
Import ListNotations.
Open Scope string_scope.
Open Scope list_scope.
Set Warnings "-register-all".

(** ** Values *)

(** What [json.load] returns.  Numbers are the integers of JSON: no
    function modelled below looks inside a number. *)
Inductive value : Type :=
| VNull : value
| VBool : bool -> value
| VNum : Z -> value
| VStr : string -> value
| VList : list value -> value
| VDict : list (string * value) -> value.

Definition dict : Type := list (string * value).

(** The exceptions the modelled code can raise. *)
Inductive exn : Type :=
| TypeError
| AttributeError
| KeyError
| ReError.

Inductive result (A : Type) : Type :=
| Ok : A -> result A
| Raise : exn -> result A.

Arguments Ok {A} _.
Arguments Raise {A} _.

Definition bind {A B : Type} (r : result A) (k : A -> result B) : result B :=
  match r with
  | Ok a => k a
  | Raise e => Raise e
  end.

Notation "x <- r ;; k" := (bind r (fun x => k))
  (at level 61, r at next level, right associativity).

(** [for x in l: acc = step(acc, x)], stopping at the first exception. *)
Fixpoint for_each {A S : Type} (step : S -> A -> result S) (l : list A) (acc : S)
  : result S :=
  match l with
  | [] => Ok acc
  | x :: l' => acc' <- step acc x ;; for_each step l' acc'
  end.

(** ** Dictionaries *)

Definition keys {V : Type} (d : list (string * V)) : list string := map fst d.

(** [d.get(k)] on the association list: the entry of key [k]. *)
Fixpoint dict_get {V : Type} (d : list (string * V)) (k : string) : option V :=
  match d with
  | [] => None
  | (k', v) :: d' => if String.eqb k' k then Some v else dict_get d' k
  end.

(** [k in d]. *)
Definition dict_mem {V : Type} (d : list (string * V)) (k : string) : bool :=
  match dict_get d k with Some _ => true | None => false end.

(** [d[k] = v]: an existing key keeps its position, a new key goes last. *)
Fixpoint dict_set {V : Type} (d : list (string * V)) (k : string) (v : V)
  : list (string * V) :=
  match d with
  | [] => [(k, v)]
  | (k', v') :: d' =>
      if String.eqb k' k then (k, v) :: d' else (k', v') :: dict_set d' k v
  end.

(** [o.get(k, default)]: only a dict has the method. *)
Definition py_get (o : value) (k : string) (default : value) : result value :=
  match o with
  | VDict d => Ok (match dict_get d k with Some v => v | None => default end)
  | _ => Raise AttributeError
  end.

(** [o.items()]. *)
Definition py_items (o : value) : result dict :=
  match o with
  | VDict d => Ok d
  | _ => Raise AttributeError
  end.

(** [o[k]] for a string key [k]: a missing key of a dict is a [KeyError];
    a list, a string or a scalar cannot be indexed by a string. *)
Definition py_getitem (o : value) (k : string) : result value :=
  match o with
  | VDict d => match dict_get d k with Some v => Ok v | None => Raise KeyError end
  | _ => Raise TypeError
  end.

(** ** Strings *)

Definition is_upper (c : ascii) : bool :=
  let n := nat_of_ascii c in (65 <=? n)%nat && (n <=? 90)%nat.

Definition is_lower (c : ascii) : bool :=
  let n := nat_of_ascii c in (97 <=? n)%nat && (n <=? 122)%nat.

Definition lower_char (c : ascii) : ascii :=
  if is_upper c then ascii_of_nat (nat_of_ascii c + 32) else c.

Definition upper_char (c : ascii) : ascii :=
  if is_lower c then ascii_of_nat (nat_of_ascii c - 32) else c.

Fixpoint map_string (f : ascii -> ascii) (s : string) : string :=
  match s with
  | EmptyString => EmptyString
  | String c s' => String (f c) (map_string f s')
  end.

(** [s.lower()] and [s.upper()] on the ASCII letters; the bytes of other
    characters are left as they are.  This is what Python does on the
    names of the HTTP methods, to which these two are applied.  Text of
    the document or of the command line can hold any character: there
    the functions of Python are taken from the library, see [str_lower]
    and [str_upper]. *)
Definition lower (s : string) : string := map_string lower_char s.
Definition upper (s : string) : string := map_string upper_char s.

(** [needle in haystack] for two strings. *)
Fixpoint contains (needle haystack : string) : bool :=
  String.prefix needle haystack ||
  match haystack with
  | EmptyString => false
  | String _ h' => contains needle h'
  end.

(** [s.lstrip(c)], [s.rstrip(c)] and [s.strip(c)] for a single character. *)
Fixpoint lstrip (c : ascii) (s : string) : string :=
  match s with
  | EmptyString => EmptyString
  | String a s' => if Ascii.eqb a c then lstrip c s' else s
  end.

Fixpoint rstrip (c : ascii) (s : string) : string :=
  match s with
  | EmptyString => EmptyString
  | String a s' =>
      match rstrip c s' with
      | EmptyString => if Ascii.eqb a c then EmptyString else String a EmptyString
      | r => String a r
      end
  end.

Definition strip (c : ascii) (s : string) : string := rstrip c (lstrip c s).

(** [s.split(c)]: always at least one piece, empty pieces kept. *)
Fixpoint split (c : ascii) (s : string) : list string :=
  match s with
  | EmptyString => [EmptyString]
  | String a s' =>
      if Ascii.eqb a c then EmptyString :: split c s'
      else match split c s' with
           | piece :: rest => String a piece :: rest
           | [] => [String a EmptyString]
           end
  end.

(** [sep.join(pieces)]. *)
Definition join (sep : string) (pieces : list string) : string :=
  String.concat sep pieces.

(** ** extract_endpoints *)

Definition http_methods : list string := ["get"; "post"; "put"; "delete"; "patch"].

Definition mem_string (s : string) (l : list string) : bool :=
  existsb (String.eqb s) l.

(** The operation record of lines 30-38, its keys in the order written. *)
Definition operation_record (operation : value) : result value :=
  summary <- py_get operation "summary" (VStr "") ;;
  description <- py_get operation "description" (VStr "") ;;
  parameters <- py_get operation "parameters" (VList []) ;;
  requestBody <- py_get operation "requestBody" (VDict []) ;;
  responses <- py_get operation "responses" (VDict []) ;;
  tags <- py_get operation "tags" (VList []) ;;
  operationId <- py_get operation "operationId" (VStr "") ;;
  Ok (VDict [("summary", summary); ("description", description);
             ("parameters", parameters); ("requestBody", requestBody);
             ("responses", responses); ("tags", tags);
             ("operationId", operationId)]).

(** [endpoints[path][method] = record]. *)
Definition set_inner (endpoints : dict) (path method : string) (record : value)
  : result dict :=
  inner <- py_getitem (VDict endpoints) path ;;
  match inner with
  | VDict methods => Ok (dict_set endpoints path (VDict (dict_set methods method record)))
  | _ => Raise TypeError
  end.

(** The body of the inner loop, lines 29-38. *)
Definition extract_method (path : string) (endpoints : dict)
  (entry : string * value) : result dict :=
  let (method, operation) := entry in
  if mem_string (lower method) http_methods then
    record <- operation_record operation ;;
    set_inner endpoints path method record
  else Ok endpoints.

(** The body of the outer loop, lines 26-38. *)
Definition extract_path (endpoints : dict) (entry : string * value) : result dict :=
  let (path, path_data) := entry in
  let endpoints := dict_set endpoints path (VDict []) in
  items <- py_items path_data ;;
  for_each (extract_method path) items endpoints.

Definition extract_endpoints (spec : value) : result dict :=
  paths <- py_get spec "paths" (VDict []) ;;
  items <- py_items paths ;;
  for_each extract_path items [].

(** ** group_by_path *)

(** The key that holds the method map of a node of the path tree. *)
Definition reserved : string := "_methods".

(** Python's [==] between a string and a value. *)
Definition eq_str (s : string) (v : value) : bool :=
  match v with
  | VStr t => String.eqb s t
  | _ => false
  end.

(** [k in o] for a string [k]: a key of a dict, an element of a list, a
    substring of a string; a scalar is not a container. *)
Definition py_in (k : string) (o : value) : result bool :=
  match o with
  | VDict d => Ok (dict_mem d k)
  | VList l => Ok (existsb (eq_str k) l)
  | VStr s => Ok (contains k s)
  | _ => Raise TypeError
  end.

(** [o[k] = v] for a string key [k]. *)
Definition py_setitem (o : value) (k : string) (v : value) : result value :=
  match o with
  | VDict d => Ok (VDict (dict_set d k v))
  | _ => Raise TypeError
  end.

(** Lines 47-52 for one path: walk down [parts] from [current], creating
    the missing nodes, and store [methods] under the reserved key of the
    node reached.  The source mutates the nodes in place; here each node
    is rebuilt around its updated child.  The two agree on the tree
    returned because every object of the tree is referenced from one
    place of the tree only: each method map is stored once, at the node
    of its own path. *)
Fixpoint insert_path (parts : list string) (methods : value) (current : value)
  : result value :=
  match parts with
  | [] => py_setitem current reserved methods
  | part :: rest =>
      present <- py_in part current ;;
      current <- (if present then Ok current
                  else py_setitem current part (VDict [])) ;;
      child <- py_getitem current part ;;
      child <- insert_path rest methods child ;;
      py_setitem current part child
  end.

(** [path.strip('/').split('/')]. *)
Definition path_parts (path : string) : list string :=
  split "/" (strip "/" path).

Definition group_by_path (endpoints : dict) : result value :=
  for_each (fun grouped entry =>
              insert_path (path_parts (fst entry)) (snd entry) grouped)
           endpoints (VDict []).

(** ** group_by_tag *)

(** A record appended to a bucket, lines 70-74. *)
Record tag_record : Type := mk_tag_record {
  rec_path : string;
  rec_method : string;
  rec_summary : value
}.

(** The buckets: a dict whose keys are the tags as they come from the
    document. *)
Definition buckets : Type := list (value * list tag_record).

(** A list or a dict cannot be the key of a dict. *)
Definition hashable (v : value) : bool :=
  match v with
  | VList _ | VDict _ => false
  | _ => true
  end.

(** Equality of two keys of a dict: [True] and [1] are one key. *)
Definition key_eqb (a b : value) : bool :=
  match a, b with
  | VNull, VNull => true
  | VStr s, VStr t => String.eqb s t
  | VBool x, VBool y => Bool.eqb x y
  | VNum x, VNum y => Z.eqb x y
  | VBool x, VNum y => Z.eqb (Z.b2z x) y
  | VNum x, VBool y => Z.eqb x (Z.b2z y)
  | _, _ => false
  end.

(** [grouped[tag].append(record)] on a [defaultdict(list)]. *)
Fixpoint bucket_append (grouped : buckets) (tag : value) (record : tag_record)
  : buckets :=
  match grouped with
  | [] => [(tag, [record])]
  | (t, records) :: rest =>
      if key_eqb t tag then (t, records ++ [record]) :: rest
      else (t, records) :: bucket_append rest tag record
  end.

Fixpoint chars (s : string) : list string :=
  match s with
  | EmptyString => []
  | String c s' => String c EmptyString :: chars s'
  end.

(** [for x in o]: the elements of a list, the keys of a dict, the
    characters of a string. *)
Definition py_iter (o : value) : result (list value) :=
  match o with
  | VList l => Ok l
  | VDict d => Ok (map VStr (keys d))
  | VStr s => Ok (map VStr (chars s))
  | _ => Raise TypeError
  end.

(** Lines 70-74: the bucket is looked up first, then the record built. *)
Definition add_tag (path method : string) (details : value) (grouped : buckets)
  (tag : value) : result buckets :=
  if hashable tag then
    summary <- py_getitem details "summary" ;;
    Ok (bucket_append grouped tag (mk_tag_record path (upper method) summary))
  else Raise TypeError.

(** Lines 68-74 for one method of one path. *)
Definition add_method_tags (path : string) (grouped : buckets)
  (entry : string * value) : result buckets :=
  let (method, details) := entry in
  tags <- py_get details "tags" (VList [VStr "untagged"]) ;;
  tag_list <- py_iter tags ;;
  for_each (add_tag path method details) tag_list grouped.

Definition group_by_tag (endpoints : dict) : result buckets :=
  for_each (fun grouped entry =>
              methods <- py_items (snd entry) ;;
              for_each (add_method_tags (fst entry)) methods grouped)
           endpoints [].

(** ** Output *)

(** The lines printed to the two streams, oldest first, and the strings
    the compiled pattern was applied to. *)
Record world : Type := mk_world {
  stdout : list string;
  stderr : list string;
  probes : list string
}.

Definition empty_world : world := mk_world [] [] [].

(** A computation that prints: it ends normally or with an exception, and
    either way leaves the world it has written to. *)
Definition io (A : Type) : Type := world -> result A * world.

Definition ret {A : Type} (a : A) : io A := fun w => (Ok a, w).

Definition raise {A : Type} (e : exn) : io A := fun w => (Raise e, w).

Definition lift {A : Type} (r : result A) : io A := fun w => (r, w).

Definition io_bind {A B : Type} (m : io A) (k : A -> io B) : io B :=
  fun w =>
    match m w with
    | (Ok a, w') => k a w'
    | (Raise e, w') => (Raise e, w')
    end.

Notation "x <~ m ;; k" := (io_bind m (fun x => k))
  (at level 61, m at next level, right associativity).
Notation "m ;;; k" := (io_bind m (fun _ => k))
  (at level 61, right associativity).

(** [print(line)]. *)
Definition print (line : string) : io unit :=
  fun w => (Ok tt, mk_world (stdout w ++ [line]) (stderr w) (probes w)).

(** [print(line, file=sys.stderr)]. *)
Definition eprint (line : string) : io unit :=
  fun w => (Ok tt, mk_world (stdout w) (stderr w ++ [line]) (probes w)).

Fixpoint for_io {A : Type} (body : A -> io unit) (l : list A) : io unit :=
  match l with
  | [] => ret tt
  | x :: l' => body x ;;; for_io body l'
  end.

Definition nl : string := String (ascii_of_nat 10) EmptyString.

(** Truth value of an object in a condition. *)
Definition truthy (v : value) : bool :=
  match v with
  | VNull => false
  | VBool b => b
  | VNum n => negb (Z.eqb n 0)
  | VStr s => negb (String.eqb s "")
  | VList l => match l with [] => false | _ => true end
  | VDict d => match d with [] => false | _ => true end
  end.

(** [sorted(l, key=key)] for string keys: a stable sort. *)
Fixpoint insert_by {A : Type} (key : A -> string) (x : A) (l : list A) : list A :=
  match l with
  | [] => [x]
  | y :: l' =>
      if String.leb (key y) (key x) then y :: insert_by key x l' else x :: l
  end.

Definition sorted_by {A : Type} (key : A -> string) (l : list A) : list A :=
  fold_left (fun acc x => insert_by key x acc) l [].

(** The parts of the Python library the inspector calls and this file
    does not define: [re.compile(pattern, re.IGNORECASE)], here the
    [search] of the compiled pattern as a test on strings, or [None] when
    the pattern is rejected with [re.error]; [json.dumps(v, indent=2)];
    [repr], which is what an f-string shows of a value that is not a
    string; and [str.lower] and [str.upper] as Python defines them on
    all of Unicode. *)
Record pylib : Type := mk_pylib {
  re_compile : string -> option (string -> bool);
  json_dumps : value -> string;
  py_repr : value -> string;
  str_lower : string -> string;
  str_upper : string -> string
}.

Section Inspector.

Variable lib : pylib.

(** A value inside an f-string. *)
Definition fmt (v : value) : string :=
  match v with
  | VStr s => s
  | _ => py_repr lib v
  end.

(** [pattern.search(v)]: only a string can be searched. *)
Definition search (pattern : string -> bool) (v : value) : io bool :=
  match v with
  | VStr s => fun w => (Ok (pattern s), mk_world (stdout w) (stderr w) (probes w ++ [s]))
  | _ => raise TypeError
  end.

(** ** search_endpoints *)

(** Lines 126-128: one line per method; the [continue] ends an iteration
    of this loop, which was ending anyway. *)
Definition report_method (entry : string * value) : io unit :=
  let (method, details) := entry in
  summary <~ lift (py_getitem details "summary") ;;
  print ("  " ++ upper method ++ ": " ++ fmt summary).

(** Lines 130-135: the loop stops at the first method whose summary or
    description matches. *)
Fixpoint search_text (pattern : string -> bool) (path : string) (methods : dict)
  : io unit :=
  match methods with
  | [] => ret tt
  | (method, details) :: rest =>
      summary <~ lift (py_getitem details "summary") ;;
      in_summary <~ search pattern summary ;;
      hit <~ (if in_summary then ret true
              else description <~ lift (py_getitem details "description") ;;
                   search pattern description) ;;
      if hit then
        print (nl ++ path) ;;;
        print ("  " ++ upper method ++ ": " ++ fmt summary)
      else search_text pattern path rest
  end.

(** Lines 124-135 for one endpoint. *)
Definition search_endpoint (pattern : string -> bool) (entry : string * value)
  : io unit :=
  let (path, methods) := entry in
  in_path <~ search pattern (VStr path) ;;
  (if in_path then
     print (nl ++ path) ;;;
     items <~ lift (py_items methods) ;;
     for_io report_method items
   else ret tt) ;;;
  items <~ lift (py_items methods) ;;
  search_text pattern path items.

Definition search_endpoints (endpoints : dict) (pattern : string) : io unit :=
  match re_compile lib pattern with
  | None => raise ReError
  | Some compiled =>
      print (nl ++ "Matching Endpoints:") ;;;
      for_io (search_endpoint compiled) endpoints
  end.

(** ** print_schema *)

Definition print_schema (spec : value) (schema_name : string) : io unit :=
  components <~ lift (py_get spec "components" (VDict [])) ;;
  schemas <~ lift (py_get components "schemas" (VDict [])) ;;
  present <~ lift (py_in schema_name schemas) ;;
  if negb present then
    eprint ("Schema '" ++ schema_name ++ "' not found")
  else
    schema <~ lift (py_getitem schemas schema_name) ;;
    print (nl ++ "Schema: " ++ schema_name) ;;;
    print (json_dumps lib schema).

(** ** show_endpoint_details *)

(** [sep.join(o)]: every element has to be a string. *)
Definition join_values (sep : string) (o : value) : result string :=
  elements <- py_iter o ;;
  pieces <- for_each (fun acc v => match v with
                                   | VStr s => Ok (acc ++ [s])
                                   | _ => Raise TypeError
                                   end) elements [] ;;
  Ok (join sep pieces).

(** Lines 165-167. *)
Definition show_parameter (param : value) : io unit :=
  name <~ lift (py_get param "name" VNull) ;;
  location <~ lift (py_get param "in" VNull) ;;
  print ("  " ++ fmt name ++ " (" ++ fmt location ++ ")") ;;;
  description <~ lift (py_get param "description" (VStr "")) ;;
  print ("    Description: " ++ fmt description) ;;;
  required <~ lift (py_get param "required" (VBool false)) ;;
  print ("    Required: " ++ fmt required).

(** Line 176. *)
Definition show_response (entry : string * value) : io unit :=
  let (status, response) := entry in
  description <~ lift (py_get response "description" (VStr "")) ;;
  print ("  " ++ status ++ ": " ++ fmt description).

(** Lines 155-176 for one method. *)
Definition show_method (entry : string * value) : io unit :=
  let (method, details) := entry in
  print (nl ++ "Method: " ++ upper method) ;;;
  summary <~ lift (py_getitem details "summary") ;;
  print ("Summary: " ++ fmt summary) ;;;
  description <~ lift (py_getitem details "description") ;;
  print ("Description: " ++ fmt description) ;;;
  tags <~ lift (py_getitem details "tags") ;;
  (if truthy tags then
     names <~ lift (join_values ", " tags) ;;
     print ("Tags: " ++ names)
   else ret tt) ;;;
  parameters <~ lift (py_getitem details "parameters") ;;
  (if truthy parameters then
     print (nl ++ "Parameters:") ;;;
     params <~ lift (py_iter parameters) ;;
     for_io show_parameter params
   else ret tt) ;;;
  requestBody <~ lift (py_getitem details "requestBody") ;;
  (if truthy requestBody then
     print (nl ++ "Request Body:") ;;;
     print (json_dumps lib requestBody)
   else ret tt) ;;;
  responses <~ lift (py_getitem details "responses") ;;
  (if truthy responses then
     print (nl ++ "Responses:") ;;;
     items <~ lift (py_items responses) ;;
     for_io show_response items
   else ret tt).

Definition show_endpoint_details (endpoints : dict) (path : string) : io unit :=
  if negb (dict_mem endpoints path) then
    eprint ("Endpoint " ++ path ++ " not found")
  else
    print (nl ++ "Endpoint: " ++ path) ;;;
    methods <~ lift (inner <- py_getitem (VDict endpoints) path ;; py_items inner) ;;
    for_io show_method methods.

(** ** show_category_details *)

(** Lines 183-184: the tags that contain the query, in the order of the
    buckets.  A tag that is not a string has no [lower]. *)
Definition matching_tags (category : string) (grouped : buckets)
  : result (list value) :=
  for_each (fun acc tag =>
              match tag with
              | VStr name =>
                  Ok (if contains (str_lower lib category) (str_lower lib name)
                      then acc ++ [tag] else acc)
              | _ => Raise AttributeError
              end)
           (map fst grouped) [].

(** The text of a tag.  The tags that reach [sorted] on line 189 are
    strings: line 184 has raised otherwise. *)
Definition tag_text (tag : value) : string :=
  match tag with
  | VStr name => name
  | _ => EmptyString
  end.

(** [grouped[tag]] on a [defaultdict(list)]. *)
Fixpoint bucket_get (grouped : buckets) (tag : value) : list tag_record :=
  match grouped with
  | [] => []
  | (t, records) :: rest =>
      if key_eqb t tag then records else bucket_get rest tag
  end.

Fixpoint repeat_string (s : string) (n : nat) : string :=
  match n with
  | O => EmptyString
  | S n' => s ++ repeat_string s n'
  end.

Definition print_tag (tag : value) : io unit := print ("- " ++ fmt tag).

(** Lines 206-207. *)
Definition print_summary (endpoint : tag_record) : io unit :=
  print (rec_method endpoint ++ " " ++ rec_path endpoint) ;;;
  print ("  " ++ fmt (rec_summary endpoint) ++ nl).

(** Lines 212-213. *)
Definition print_details (endpoints : dict) (endpoint : tag_record) : io unit :=
  print (nl ++ repeat_string "=" 80 ++ nl) ;;;
  show_endpoint_details endpoints (rec_path endpoint).

Definition show_category_details (spec : value) (endpoints : dict)
  (category : string) : io unit :=
  grouped <~ lift (group_by_tag endpoints) ;;
  matches <~ lift (matching_tags category grouped) ;;
  match matches with
  | [] =>
      print ("No category found matching '" ++ category ++ "'") ;;;
      print (nl ++ "Available categories:") ;;;
      for_io print_tag (sorted_by tag_text (map fst grouped))
  | [tag] =>
      print (nl ++ "=== " ++ fmt tag ++ " API Endpoints ===" ++ nl) ;;;
      print "Summary:" ;;;
      for_io print_summary (sorted_by rec_path (bucket_get grouped tag)) ;;;
      print (nl ++ "Detailed Specifications:") ;;;
      for_io (print_details endpoints) (sorted_by rec_path (bucket_get grouped tag))
  | _ =>
      print ("Multiple categories match '" ++ category ++ "':") ;;;
      for_io print_tag matches
  end.

(** ** The plain listing of [main], lines 363-368 *)

(** [not args.method or args.method.upper() == method.upper()]. *)
Definition method_selected (filter : option string) (method : string) : bool :=
  match filter with
  | None => true
  | Some m => String.eqb m "" || String.eqb (str_upper lib m) (str_upper lib method)
  end.

Definition list_method (filter : option string) (entry : string * value) : io unit :=
  let (method, details) := entry in
  if method_selected filter method then
    summary <~ lift (py_getitem details "summary") ;;
    print ("  " ++ str_upper lib method ++ ": " ++ fmt summary)
  else ret tt.

Definition list_endpoint (filter : option string) (entry : string * value) : io unit :=
  let (path, methods) := entry in
  print (nl ++ path) ;;;
  items <~ lift (py_items methods) ;;
  for_io (list_method filter) (sorted_by fst items).

Definition list_endpoints (endpoints : dict) (filter : option string) : io unit :=
  print (nl ++ "Available Endpoints:") ;;;
  for_io (list_endpoint filter) (sorted_by fst endpoints).

End Inspector.

(** ** group_by_method *)

(** The paths of each method: a [defaultdict(list)] with string keys. *)
Definition path_buckets : Type := list (string * list string).

(** [grouped[key].append(item)] on a [defaultdict(list)]. *)
Fixpoint dict_append {V : Type} (grouped : list (string * list V)) (key : string)
  (item : V) : list (string * list V) :=
  match grouped with
  | [] => [(key, [item])]
  | (k, items) :: rest =>
      if String.eqb k key then (k, items ++ [item]) :: rest
      else (k, items) :: dict_append rest key item
  end.

(** Line 60: only a string has [upper]. *)
Definition add_method_path (path : string) (grouped : path_buckets)
  (method : value) : result path_buckets :=
  match method with
  | VStr m => Ok (dict_append grouped (upper m) path)
  | _ => Raise AttributeError
  end.

Definition group_by_method (endpoints : dict) : result path_buckets :=
  for_each (fun grouped entry =>
              methods <- py_iter (snd entry) ;;
              for_each (add_method_path (fst entry)) methods grouped)
           endpoints [].

Section Groups.

Variable lib : pylib.

(** ** print_grouped_endpoints *)

(** Line 142, written at [indent] levels. *)
Definition print_tree_method (indent : nat) (entry : string * value) : io unit :=
  let (method, details) := entry in
  summary <~ lift (py_getitem details "summary") ;;
  print (repeat_string "  " indent ++ upper method ++ ": " ++ fmt lib summary).

(** Lines 139-145.  The source sorts the items of the node and then
    handles them one by one, going down into a child when its turn
    comes.  Here what to do for each item is prepared first, in the order
    of the dict, and the prepared actions are then run in the sorted
    order of their keys: an action prints nothing until it is run, so the
    output is that of the source.  The keys of a dict are distinct, so
    [sorted] never compares two values. *)
Fixpoint print_grouped_endpoints (grouped : value) (indent : nat) : io unit :=
  match grouped with
  | VDict d =>
      for_io snd
        (sorted_by fst
           (map (fun entry =>
                   (fst entry,
                    if String.eqb (fst entry) reserved then
                      items <~ lift (py_items (snd entry)) ;;
                      for_io (print_tree_method indent) items
                    else
                      print (repeat_string "  " indent ++ fst entry ++ "/") ;;;
                      print_grouped_endpoints (snd entry) (S indent)))
                d))
  | _ => raise AttributeError
  end.

(** ** print_endpoint_groups *)

(** Line 235. *)
Definition print_group_name (tag : value) : io unit :=
  name <~ lift (py_getitem tag "name") ;;
  print ("- " ++ fmt lib name).

Definition print_endpoint_groups (spec : value) : io unit :=
  tags <~ lift (py_get spec "tags" (VList [])) ;;
  if negb (truthy tags) then
    print "No endpoint groups found in the API specification"
  else
    print (nl ++ "Available Endpoint Groups:") ;;;
    items <~ lift (py_iter tags) ;;
    for_io print_group_name items.

(** ** print_endpoint_group_description *)

(** [tag['name'].lower()]. *)
Definition lower_name (tag : value) : result string :=
  name <- py_getitem tag "name" ;;
  match name with
  | VStr s => Ok (str_lower lib s)
  | _ => Raise AttributeError
  end.

(** [[tag for tag in tags if test(tag['name'].lower())]]. *)
Definition select_tags (test : string -> bool) (tags : list value)
  : result (list value) :=
  for_each (fun acc tag =>
              name <- lower_name tag ;;
              Ok (if test name then acc ++ [tag] else acc))
           tags [].

Definition print_endpoint_group_description (spec : value) (group_name : string)
  : io unit :=
  tags <~ lift (py_get spec "tags" (VList [])) ;;
  items <~ lift (py_iter tags) ;;
  exact <~ lift (select_tags (String.eqb (str_lower lib group_name)) items) ;;
  matches <~ (match exact with
              | [] => lift (select_tags (contains (str_lower lib group_name)) items)
              | _ => ret exact
              end) ;;
  match matches with
  | [] =>
      print ("No endpoint group found matching '" ++ group_name ++ "'") ;;;
      print (nl ++ "Available groups:") ;;;
      for_io print_group_name items
  | [tag] =>
      name <~ lift (py_getitem tag "name") ;;
      print (nl ++ "=== " ++ fmt lib name ++ " API Endpoints ===" ++ nl) ;;;
      description <~ lift (py_getitem tag "description") ;;
      print (fmt lib description)
  | _ =>
      print ("Multiple endpoint groups match '" ++ group_name ++ "':") ;;;
      for_io print_group_name matches
  end.

(** ** list_endpoints of parse_api_spec.py *)

(** Lines 60-61: the method map is asked for the filter in lower case. *)
Definition list_filtered (method : string) (entry : string * value) : io unit :=
  let (path, methods) := entry in
  present <~ lift (py_in (lower method) methods) ;;
  if present then
    details <~ lift (py_getitem methods (lower method)) ;;
    summary <~ lift (py_getitem details "summary") ;;
    print (path ++ " [" ++ upper method ++ "]: " ++ fmt lib summary)
  else ret tt.

(** Lines 63-65. *)
Definition list_unfiltered (entry : string * value) : io unit :=
  let (path, methods) := entry in
  print (nl ++ path) ;;;
  items <~ lift (py_items methods) ;;
  for_io (report_method lib) items.

(** [list_endpoints(endpoints, method)] of parse_api_spec.py: [None] and
    the empty string both stand for no filter. *)
Definition simple_list_endpoints (endpoints : dict) (method : option string)
  : io unit :=
  print "Available Endpoints:" ;;;
  for_io (fun entry =>
            match method with
            | Some m => if String.eqb m "" then list_unfiltered entry
                        else list_filtered m entry
            | None => list_unfiltered entry
            end)
         endpoints.

End Groups.

Section MethodListing.

Variable lib : pylib.

(** ** The listing by method of [main], lines 348-354 *)

(** [not args.method or args.method.upper() == method]. *)
Definition bucket_selected (filter : option string) (method : string) : bool :=
  match filter with
  | None => true
  | Some m => String.eqb m "" || String.eqb (str_upper lib m) method
  end.

(** Lines 351-354 for one bucket. *)
Definition list_bucket (filter : option string) (entry : string * list string)
  : io unit :=
  let (method, paths) := entry in
  if bucket_selected filter method then
    print (nl ++ method ++ ":") ;;;
    for_io (fun path => print ("  " ++ path)) (sorted_by (fun path => path) paths)
  else ret tt.

Definition list_by_method (endpoints : dict) (filter : option string) : io unit :=
  grouped <~ lift (group_by_method endpoints) ;;
  print (nl ++ "Endpoints by Method:") ;;;
  for_io (list_bucket filter) (sorted_by fst grouped).

End MethodListing.

(** * Notions of the specification *)

(** ** Extraction *)

(** The test of line 29. *)
Definition is_http_method (method : string) : bool :=
  mem_string (lower method) http_methods.

(** [d.get(k, default)] on a dict. *)
Definition default_get (d : dict) (k : string) (default : value) : value :=
  match dict_get d k with
  | Some v => v
  | None => default
  end.

(** The record stored for an operation object [op]. *)
Definition normalized (op : dict) : value :=
  VDict [("summary", default_get op "summary" (VStr ""));
         ("description", default_get op "description" (VStr ""));
         ("parameters", default_get op "parameters" (VList []));
         ("requestBody", default_get op "requestBody" (VDict []));
         ("responses", default_get op "responses" (VDict []));
         ("tags", default_get op "tags" (VList []));
         ("operationId", default_get op "operationId" (VStr ""))].

(** The record of an operation, the map of a path item: what the two
    loops of [extract_endpoints] build when nothing is raised. *)
Definition record_of (operation : value) : value :=
  match operation with
  | VDict op => normalized op
  | _ => VNull
  end.

Definition extracted_methods (item : dict) : dict :=
  map (fun e => (fst e, record_of (snd e)))
      (filter (fun e => is_http_method (fst e)) item).

Definition extracted_item (path_data : value) : value :=
  match path_data with
  | VDict item => VDict (extracted_methods item)
  | _ => VNull
  end.

Definition is_dict (v : value) : Prop := exists d, v = VDict d.

(** A path item as an OpenAPI document has it: an object with distinct
    keys whose operations are objects. *)
Definition path_item (path_data : value) : Prop :=
  exists item, path_data = VDict item /\ NoDup (keys item) /\
    forall method operation, In (method, operation) item ->
      is_http_method method = true -> is_dict operation.

(** [paths] is the [paths] object of the document [spec]. *)
Definition paths_of (spec : value) (paths : dict) : Prop :=
  py_get spec "paths" (VDict []) = Ok (VDict paths) /\
  NoDup (keys paths) /\
  forall path path_data, In (path, path_data) paths -> path_item path_data.

(** The optional fields of an operation and the value each takes when the
    operation does not have it. *)
Definition field_defaults : dict :=
  [("summary", VStr ""); ("description", VStr ""); ("parameters", VList []);
   ("requestBody", VDict []); ("responses", VDict []); ("tags", VList []);
   ("operationId", VStr "")].

(** A document with an upper-case method, a shared [parameters] key and a
    path item without operations. *)
Definition sample_paths : dict :=
  [("/users", VDict [("get", VDict [("summary", VStr "List users");
                                    ("tags", VList [VStr "Users"])]);
                     ("parameters", VList [])]);
   ("/calls", VDict [("POST", VDict [])]);
   ("/health", VDict [("$ref", VStr "#/health")])].

Definition sample_spec : value :=
  VDict [("info", VDict [("title", VStr "Sample")]);
         ("paths", VDict sample_paths);
         ("components", VDict [("schemas", VDict [("User", VDict [])])])].

(** Every method key of the map is, in lower case, an HTTP method. *)
Definition method_keys (endpoints : dict) : Prop :=
  forall path methods key,
    In (path, VDict methods) endpoints -> In key (keys methods) ->
    is_http_method key = true.

(** Every method key of the map is a key of the path item that the
    document gives for the same path, spelled as the document spells it. *)
Definition document_keys (paths endpoints : dict) : Prop :=
  forall path methods key,
    In (path, VDict methods) endpoints -> In key (keys methods) ->
    exists item, In (path, VDict item) paths /\ In key (keys item).

(** The endpoint map of [sample_spec]. *)
Definition sample_endpoints : dict :=
  [("/users", VDict [("get", normalized [("summary", VStr "List users");
                                         ("tags", VList [VStr "Users"])])]);
   ("/calls", VDict [("POST", normalized [])]);
   ("/health", VDict [])].

(** ** Search *)

(** The string under key [k] of a record, when it is one. *)
Definition text_field (details : value) (k : string) : string :=
  match py_getitem details k with
  | Ok (VStr s) => s
  | _ => EmptyString
  end.

Definition is_text (details : value) (k : string) : Prop :=
  py_getitem details k = Ok (VStr (text_field details k)).

(** The summary and the description of a record are strings. *)
Definition text_record (details : value) : Prop :=
  is_text details "summary" /\ is_text details "description".

(** Neither the summary nor the description of the record matches. *)
Definition no_text_match (pattern : string -> bool) (details : value) : Prop :=
  text_record details /\
  pattern (text_field details "summary") = false /\
  pattern (text_field details "description") = false.

(** The strings line 131-132 hands to the pattern for one record: the
    description only when the summary did not match. *)
Definition text_probes (pattern : string -> bool) (details : value) : list string :=
  if pattern (text_field details "summary")
  then [text_field details "summary"]
  else [text_field details "summary"; text_field details "description"].

(** The world after more searches, after more lines printed. *)
Definition add_probes (w : world) (l : list string) : world :=
  mk_world (stdout w) (stderr w) (probes w ++ l).

Definition add_stdout (w : world) (l : list string) : world :=
  mk_world (stdout w ++ l) (stderr w) (probes w).

Definition is_digit (c : ascii) : bool :=
  let n := nat_of_ascii c in (48 <=? n)%nat && (n <=? 57)%nat.

Fixpoint all_chars (f : ascii -> bool) (s : string) : bool :=
  match s with
  | EmptyString => true
  | String c s' => f c && all_chars f s'
  end.

(** A pattern library for the examples: a pattern made of letters and
    digits searches for itself without regard to case, which is what
    [re.compile(p, re.IGNORECASE).search] does for such a pattern; every
    other pattern is refused, as the library refuses an opening
    parenthesis alone.  The texts of [json.dumps] and [repr] play no
    role in the examples, whose strings are ASCII: on them [lower] and
    [upper] are [str.lower] and [str.upper]. *)
Definition literal_compile (p : string) : option (string -> bool) :=
  if all_chars (fun c => is_upper c || is_lower c || is_digit c) p
  then Some (fun s => contains (lower p) (lower s))
  else None.

Definition literal_lib : pylib :=
  mk_pylib literal_compile (fun _ => EmptyString) (fun _ => EmptyString)
    lower upper.

Definition list_pattern : string -> bool := fun s => contains "list" (lower s).

(** The line of a method under a matching path, line 127. *)
Definition method_line (entry : string * value) : string :=
  ("  " ++ upper (fst entry) ++ ": " ++ text_field (snd entry) "summary")%string.

(** The methods of every endpoint are records whose summary and
    description are strings, as [extract_endpoints] makes them from a
    document that gives these two fields as strings or not at all. *)
Definition text_endpoints (endpoints : dict) : Prop :=
  forall path methods, In (path, methods) endpoints ->
    exists items, methods = VDict items /\
      forall method details, In (method, details) items -> text_record details.

(** ** Tags and categories *)

(** The number of records in all the buckets together. *)
Definition bucket_total (grouped : buckets) : nat :=
  fold_right (fun bucket n => (length (snd bucket) + n)%nat) 0%nat grouped.

(** The number of tags the loop of line 69 runs over for one record. *)
Definition tag_count (details : value) : nat :=
  match py_get details "tags" (VList [VStr "untagged"]) with
  | Ok tags => match py_iter tags with Ok l => length l | Raise _ => 0%nat end
  | Raise _ => 0%nat
  end.

Definition methods_tag_count (methods : value) : nat :=
  match methods with
  | VDict items => list_sum (map (fun e => tag_count (snd e)) items)
  | _ => 0%nat
  end.

Definition endpoints_tag_count (endpoints : dict) : nat :=
  list_sum (map (fun e => methods_tag_count (snd e)) endpoints).

Definition is_str (v : value) : Prop := exists s, v = VStr s.

(** An endpoint map with three tags, two of which contain [us], and its
    tag grouping. *)
Definition category_endpoints : dict :=
  [("/users", VDict [("get", normalized [("summary", VStr "List users");
                                         ("tags", VList [VStr "Users"])])]);
   ("/usage", VDict [("get", normalized [("tags", VList [VStr "Usage"])])]);
   ("/calls", VDict [("post", normalized [("tags", VList [VStr "Calls"])])])].

Definition category_buckets : buckets :=
  [(VStr "Users", [mk_tag_record "/users" "GET" (VStr "List users")]);
   (VStr "Usage", [mk_tag_record "/usage" "GET" (VStr "")]);
   (VStr "Calls", [mk_tag_record "/calls" "POST" (VStr "")])].

(** ** The path tree *)

(** The method map stored at the node that [segments] lead to. *)
Fixpoint tree_methods (node : value) (segments : list string) : option value :=
  match node with
  | VDict d =>
      match segments with
      | [] => dict_get d reserved
      | segment :: rest =>
          match dict_get d segment with
          | Some child => tree_methods child rest
          | None => None
          end
      end
  | _ => None
  end.

(** The walk of the tree: as [print_grouped_endpoints] does, it takes the
    reserved key of a node for its method map and every other key for a
    child segment.  It returns the segments leading to each node that
    has a method map, with that map. *)
Fixpoint tree_nodes (node : value) (prefix : list string)
  : list (list string * value) :=
  match node with
  | VDict d =>
      flat_map (fun entry =>
                  if String.eqb (fst entry) reserved then [(prefix, snd entry)]
                  else tree_nodes (snd entry) (prefix ++ [fst entry]))
               d
  | _ => []
  end.

Definition method_names (methods : value) : list string :=
  match methods with
  | VDict d => keys d
  | _ => []
  end.

(** The (path, method) pairs read off the tree, the path re-joined from
    the segments. *)
Definition tree_pairs (tree : value) : list (string * string) :=
  flat_map (fun node =>
              map (fun method => (join "/" (fst node), method))
                  (method_names (snd node)))
           (tree_nodes tree []).

(** The (path, method) pairs of an endpoint map. *)
Definition endpoint_pairs (endpoints : dict) : list (string * string) :=
  flat_map (fun entry =>
              map (fun method => (fst entry, method)) (method_names (snd entry)))
           endpoints.

(** A well-formed path tree: every node is a dict with distinct keys and
    every key but the reserved one leads to a node. *)
Inductive trie : value -> Prop :=
| trie_node (d : dict) :
    NoDup (keys d) ->
    (forall k v, In (k, v) d -> k <> reserved -> trie v) ->
    trie (VDict d).

(** The paths of the map stay distinct once stripped of their slashes,
    and none has a segment that is the reserved key. *)
Definition distinct_paths (endpoints : dict) : Prop :=
  NoDup (map (strip "/") (keys endpoints)).

Definition no_reserved_segment (endpoints : dict) : Prop :=
  forall path, In path (keys endpoints) -> ~ In reserved (path_parts path).

(** Two paths of a document that differ by a trailing slash. *)
Definition slash_spec : value :=
  VDict [("paths", VDict [("/a", VDict [("get", VDict [])]);
                          ("/a/", VDict [("post", VDict [])])])].

(** ** Output of a category *)

(** The order of [sorted] on the keys. *)
Definition key_le {A : Type} (key : A -> string) (a b : A) : Prop :=
  String.leb (key a) (key b) = true.

(** The two lines of the summary for one record, lines 206-207. *)
Definition summary_lines (lib : pylib) (endpoint : tag_record) : list string :=
  [(rec_method endpoint ++ " " ++ rec_path endpoint)%string;
   ("  " ++ fmt lib (rec_summary endpoint) ++ nl)%string].

(** The line of a tag in a list of tags, lines 190 and 197. *)
Definition tag_line (lib : pylib) (tag : value) : string :=
  ("- " ++ fmt lib tag)%string.

(** ** Buckets *)

(** The items under a key of a [defaultdict(list)]; none when the key is
    not there. *)
Definition bucket_of {V : Type} (grouped : list (string * list V)) (key : string)
  : list V :=
  match dict_get grouped key with
  | Some items => items
  | None => []
  end.

(** The paths that have a method which is [key] in upper case, once for
    each such method, in the order of the map. *)
Definition paths_with_method (endpoints : dict) (key : string) : list string :=
  flat_map (fun entry =>
              map (fun _ => fst entry)
                  (filter (fun method => String.eqb (upper method) key)
                          (method_names (snd entry))))
           endpoints.

(** Every bucket has an item. *)
Definition no_empty_bucket {V : Type} (grouped : list (string * list V)) : Prop :=
  forall key, In key (keys grouped) -> bucket_of grouped key <> [].

(** The tags the loop of line 69 goes through for one method, each with
    the record appended for it. *)
Definition method_tag_records (path : string) (entry : string * value)
  : list (value * tag_record) :=
  match py_get (snd entry) "tags" (VList [VStr "untagged"]) with
  | Ok tags =>
      match py_iter tags, py_getitem (snd entry) "summary" with
      | Ok l, Ok summary =>
          map (fun tag => (tag, mk_tag_record path (upper (fst entry)) summary)) l
      | _, _ => []
      end
  | Raise _ => []
  end.

(** The same for a whole endpoint map, in the order of the loops. *)
Definition tag_records (endpoints : dict) : list (value * tag_record) :=
  flat_map (fun entry =>
              match snd entry with
              | VDict methods => flat_map (method_tag_records (fst entry)) methods
              | _ => []
              end)
           endpoints.

(** The records of the occurrences of a tag. *)
Definition records_of_tag (occurrences : list (value * tag_record)) (tag : value)
  : list tag_record :=
  map snd (filter (fun o => key_eqb (fst o) tag) occurrences).

(** The method map of the last path of the map whose segments are
    [segments]. *)
Definition last_methods (endpoints : dict) (segments : list string)
  : option value :=
  fold_left (fun found entry =>
               if list_eq_dec string_dec (path_parts (fst entry)) segments
               then Some (snd entry) else found)
            endpoints None.

(** The entry of [path] is a method map. *)
Definition has_methods (path : string) (endpoints : dict) : Prop :=
  exists methods, dict_get endpoints path = Some (VDict methods).

(** ** Endpoint groups *)

(** The name of a tag of the document, in lower case. *)
Definition group_key (lib : pylib) (tag : value) : string :=
  str_lower lib (text_field tag "name").

(** The heading printed for the group that was asked for, line 261. *)
Definition group_heading (tag : value) : string :=
  (nl ++ "=== " ++ text_field tag "name" ++ " API Endpoints ===" ++ nl)%string.

(** ** Listings *)

(** The lines of the segments of a path in the tree listing, each one
    level deeper than the one before. *)
Fixpoint segment_lines (indent : nat) (parts : list string) : list string :=
  match parts with
  | [] => []
  | part :: rest =>
      (repeat_string "  " indent ++ part ++ "/")%string
      :: segment_lines (S indent) rest
  end.

(** The line of a method in the tree listing, line 142. *)
Definition tree_method_line (indent : nat) (entry : string * value) : string :=
  (repeat_string "  " indent ++ upper (fst entry) ++ ": "
   ++ text_field (snd entry) "summary")%string.

(** The tree of a single path. *)
Fixpoint chain (parts : list string) (methods : value) : value :=
  match parts with
  | [] => VDict [(reserved, methods)]
  | part :: rest => VDict [(part, chain rest methods)]
  end.

(** The items of a dict. *)
Definition items_of (v : value) : dict :=
  match v with
  | VDict d => d
  | _ => []
  end.

(** The line of a path under a method filter in the simple listing: the
    method map has to have the filter, in lower case, as a key. *)
Definition filtered_line (method : string) (entry : string * value) : list string :=
  match dict_get (items_of (snd entry)) (lower method) with
  | Some details =>
      [(fst entry ++ " [" ++ upper method ++ "]: "
        ++ text_field details "summary")%string]
  | None => []
  end.

(** The strings searched for an endpoint that matches nowhere. *)
Definition endpoint_probes (pattern : string -> bool) (entry : string * value)
  : list string :=
  fst entry
  :: flat_map (fun m => text_probes pattern (snd m)) (items_of (snd entry)).

(** ** The details of an endpoint *)

(** The value under a key of a record. *)
Definition field (details : value) (k : string) : value :=
  match py_getitem details k with
  | Ok v => v
  | Raise _ => VNull
  end.

(** The elements a loop goes through, and the tags joined by commas. *)
Definition elements (v : value) : list value :=
  match py_iter v with
  | Ok l => l
  | Raise _ => []
  end.

Definition joined (v : value) : string :=
  match join_values ", " v with
  | Ok s => s
  | Raise _ => EmptyString
  end.

(** The three lines of a parameter, lines 165-167, and the line of a
    response, line 176. *)
Definition parameter_lines (lib : pylib) (param : value) : list string :=
  [("  " ++ fmt lib (default_get (items_of param) "name" VNull)
    ++ " (" ++ fmt lib (default_get (items_of param) "in" VNull) ++ ")")%string;
   ("    Description: "
    ++ fmt lib (default_get (items_of param) "description" (VStr "")))%string;
   ("    Required: "
    ++ fmt lib (default_get (items_of param) "required" (VBool false)))%string].

Definition response_lines (lib : pylib) (entry : string * value) : list string :=
  [("  " ++ fst entry ++ ": "
    ++ fmt lib (default_get (items_of (snd entry)) "description" (VStr "")))%string].

(** The lines of one method, lines 155-176: three lines, then a section
    for each of tags, parameters, request body and responses that is not
    empty. *)
Definition method_lines (lib : pylib) (entry : string * value) : list string :=
  let details := snd entry in
  [(nl ++ "Method: " ++ upper (fst entry))%string;
   ("Summary: " ++ fmt lib (field details "summary"))%string;
   ("Description: " ++ fmt lib (field details "description"))%string]
  ++ (if truthy (field details "tags")
      then [("Tags: " ++ joined (field details "tags"))%string] else [])
  ++ (if truthy (field details "parameters")
      then (nl ++ "Parameters:")%string
           :: flat_map (parameter_lines lib) (elements (field details "parameters"))
      else [])
  ++ (if truthy (field details "requestBody")
      then [(nl ++ "Request Body:")%string;
            json_dumps lib (field details "requestBody")]
      else [])
  ++ (if truthy (field details "responses")
      then (nl ++ "Responses:")%string
           :: flat_map (response_lines lib) (items_of (field details "responses"))
      else []).

(** A record [show_endpoint_details] can print: it has the six keys
    read; its tags, when there are some, are strings; its parameters,
    when there are some, are objects; its responses, when there are some,
    are an object of objects. *)
Definition detail_record (details : value) : Prop :=
  (forall k, In k ["summary"; "description"; "tags"; "parameters";
                   "requestBody"; "responses"] ->
     py_getitem details k = Ok (field details k)) /\
  (truthy (field details "tags") = true ->
   join_values ", " (field details "tags") = Ok (joined (field details "tags"))) /\
  (truthy (field details "parameters") = true ->
   py_iter (field details "parameters")
   = Ok (elements (field details "parameters")) /\
   Forall is_dict (elements (field details "parameters"))) /\
  (truthy (field details "responses") = true ->
   is_dict (field details "responses") /\
   Forall (fun e => is_dict (snd e)) (items_of (field details "responses"))).

(** The computation ends normally and prints these lines, all to the
    standard output. *)
Definition prints (m : io unit) (lines : list string) : Prop :=
  forall w, m w = (Ok tt, add_stdout w lines).

(** The section of a method in the listing by method: its heading and
    its paths, sorted. *)
Definition bucket_lines (method : string) (paths : list string) : list string :=
  (nl ++ method ++ ":")%string
  :: map (fun path => ("  " ++ path)%string) (sorted_by (fun path => path) paths).

(** ** Sample documents of the further properties *)

(** Two groups, the name of the first a part of the name of the second;
    the second has no description. *)
Definition groups_spec : value :=
  VDict [("tags",
          VList [VDict [("name", VStr "Users");
                        ("description", VStr "<p>People</p>")];
                 VDict [("name", VStr "Users Admin")]])].

(** An endpoint map with the tags [User] and [Users], and its grouping. *)
Definition shadow_endpoints : dict :=
  [("/user", VDict [("get", normalized [("tags", VList [VStr "User"])])]);
   ("/users", VDict [("get", normalized [("tags", VList [VStr "Users"])])])].

Definition shadow_buckets : buckets :=
  [(VStr "User", [mk_tag_record "/user" "GET" (VStr "")]);
   (VStr "Users", [mk_tag_record "/users" "GET" (VStr "")])].

(** ** The single category *)

(** The methods the map has for a path; none when the path is not
    there. *)
Definition methods_at (endpoints : dict) (path : string) : dict :=
  items_of (default_get endpoints path VNull).

(** The lines of the details of one record of a bucket, lines 212-213:
    the separator, the heading of the path and the lines of every method
    the map has for the path. *)
Definition detail_lines (lib : pylib) (endpoints : dict) (endpoint : tag_record)
  : list string :=
  [(nl ++ repeat_string "=" 80 ++ nl)%string;
   (nl ++ "Endpoint: " ++ rec_path endpoint)%string]
  ++ flat_map (method_lines lib) (methods_at endpoints (rec_path endpoint)).

(** Every record of the map is one [show_endpoint_details] can print. *)
Definition detailed (endpoints : dict) : Prop :=
  forall path methods method details,
    In (path, VDict methods) endpoints -> In (method, details) methods ->
    detail_record details.

(** A document whose endpoint map is [category_endpoints]. *)
Definition category_spec : value :=
  VDict [("paths",
          VDict [("/users", VDict [("get", VDict [("summary", VStr "List users");
                                                  ("tags", VList [VStr "Users"])])]);
                 ("/usage", VDict [("get", VDict [("tags", VList [VStr "Usage"])])]);
                 ("/calls", VDict [("post", VDict [("tags", VList [VStr "Calls"])])])])].

(** A document with two endpoints under the tag [Users], the later path
    first, and its endpoint map. *)
Definition directory_spec : value :=
  VDict [("paths",
          VDict [("/users/{id}",
                  VDict [("get", VDict [("summary", VStr "Get user");
                                        ("tags", VList [VStr "Users"])])]);
                 ("/users",
                  VDict [("post",
                          VDict [("summary", VStr "Create user");
                                 ("tags", VList [VStr "Users"]);
                                 ("responses",
                                  VDict [("201",
                                          VDict [("description",
                                                  VStr "Created")])])])]);
                 ("/calls",
                  VDict [("get", VDict [("tags", VList [VStr "Calls"])])])])].

Definition directory_endpoints : dict :=
  [("/users/{id}",
    VDict [("get", normalized [("summary", VStr "Get user");
                               ("tags", VList [VStr "Users"])])]);
   ("/users",
    VDict [("post",
            normalized [("summary", VStr "Create user");
                        ("tags", VList [VStr "Users"]);
                        ("responses",
                         VDict [("201",
                                 VDict [("description", VStr "Created")])])])]);
   ("/calls", VDict [("get", normalized [("tags", VList [VStr "Calls"])])])].

(** ** The plain listing *)

(** The line of a method in the plain listing, line 368. *)
Definition method_listing (lib : pylib) (entry : string * value) : string :=
  ("  " ++ str_upper lib (fst entry) ++ ": "
   ++ fmt lib (field (snd entry) "summary"))%string.

(** The lines of a path in the plain listing, lines 365-368: the path,
    then its methods in the order of their names, those the method
    filter selects. *)
Definition listing_lines (lib : pylib) (method : option string)
  (entry : string * value) : list string :=
  (nl ++ fst entry)%string
  :: map (method_listing lib)
         (filter (fun m => method_selected lib method (fst m))
                 (sorted_by fst (items_of (snd entry)))).

(** A document with a path item without operations whose path goes
    through the reserved key of the path tree, and its endpoint map. *)
Definition reserved_spec : value :=
  VDict [("paths",
          VDict [("/a", VDict [("get", VDict [])]);
                 ("/a/_methods/get/summary", VDict [])])].

Definition reserved_endpoints : dict :=
  [("/a", VDict [("get", normalized [])]);
   ("/a/_methods/get/summary", VDict [])].

(** * Properties *)

(** ** Dictionaries and loops *)

Lemma dict_get_In {V : Type} (d : list (string * V)) (k : string) (v : V) :
  dict_get d k = Some v -> In (k, v) d.
Proof.
  induction d as [|[k' v'] d IH]; simpl; [discriminate|].
  destruct (String.eqb_spec k' k) as [->|Hne].
  - intros [= ->]. now left.
  - intros H. right. now apply IH.
Qed.

Lemma dict_get_None {V : Type} (d : list (string * V)) (k : string) :
  dict_get d k = None <-> ~ In k (keys d).
Proof.
  induction d as [|[k' v'] d IH]; simpl.
  - tauto.
  - destruct (String.eqb_spec k' k) as [->|Hne].
    + split; [discriminate|]. intros H. exfalso. apply H. now left.
    + rewrite IH. split.
      * intros H [E|HI]; [now apply Hne | now apply H].
      * intros H HI. apply H. now right.
Qed.

Lemma In_keys {V : Type} (d : list (string * V)) (k : string) (v : V) :
  In (k, v) d -> In k (keys d).
Proof. intros H. apply (in_map fst) in H. exact H. Qed.

Lemma In_dict_get {V : Type} (d : list (string * V)) (k : string) (v : V) :
  NoDup (keys d) -> In (k, v) d -> dict_get d k = Some v.
Proof.
  induction d as [|[k' v'] d IH]; simpl; [tauto|].
  intros Hnd [E|HI].
  - injection E as -> ->. now rewrite String.eqb_refl.
  - inversion Hnd as [|? ? Hnot Hnd']; subst.
    destruct (String.eqb_spec k' k) as [->|Hne].
    + exfalso. apply Hnot. now apply In_keys with v.
    + now apply IH.
Qed.

Lemma dict_get_set_same {V : Type} (d : list (string * V)) (k : string) (v : V) :
  dict_get (dict_set d k v) k = Some v.
Proof.
  induction d as [|[k' v'] d IH]; simpl.
  - now rewrite String.eqb_refl.
  - destruct (String.eqb_spec k' k) as [->|Hne]; simpl.
    + now rewrite String.eqb_refl.
    + destruct (String.eqb_spec k' k); [contradiction|exact IH].
Qed.

Lemma dict_get_set_other {V : Type} (d : list (string * V)) (k k' : string) (v : V) :
  k <> k' -> dict_get (dict_set d k v) k' = dict_get d k'.
Proof.
  intros Hne. induction d as [|[k0 v0] d IH]; simpl.
  - destruct (String.eqb_spec k k'); [contradiction|reflexivity].
  - destruct (String.eqb_spec k0 k) as [->|Hne0]; simpl.
    + destruct (String.eqb_spec k k'); [contradiction|reflexivity].
    + destruct (String.eqb_spec k0 k'); [reflexivity|exact IH].
Qed.

Lemma dict_set_set {V : Type} (d : list (string * V)) (k : string) (v v' : V) :
  dict_set (dict_set d k v) k v' = dict_set d k v'.
Proof.
  induction d as [|[k0 v0] d IH]; simpl.
  - now rewrite String.eqb_refl.
  - destruct (String.eqb_spec k0 k) as [->|Hne]; simpl.
    + now rewrite String.eqb_refl.
    + destruct (String.eqb_spec k0 k); [contradiction|now rewrite IH].
Qed.

Lemma dict_set_fresh {V : Type} (d : list (string * V)) (k : string) (v : V) :
  ~ In k (keys d) -> dict_set d k v = d ++ [(k, v)].
Proof.
  induction d as [|[k0 v0] d IH]; simpl; [reflexivity|].
  intros H. destruct (String.eqb_spec k0 k) as [->|Hne].
  - exfalso. apply H. now left.
  - rewrite IH; [reflexivity|]. intros HI. apply H. now right.
Qed.

Lemma keys_dict_set {V : Type} (d : list (string * V)) (k : string) (v : V) :
  In k (keys d) -> keys (dict_set d k v) = keys d.
Proof.
  induction d as [|[k0 v0] d IH]; simpl; [tauto|].
  intros H. destruct (String.eqb_spec k0 k) as [->|Hne]; simpl.
  - reflexivity.
  - destruct H as [E|H]; [contradiction|]. now rewrite IH.
Qed.

Lemma keys_app {V : Type} (d d' : list (string * V)) :
  keys (d ++ d') = keys d ++ keys d'.
Proof. apply map_app. Qed.

(** ** extract_endpoints on a well-formed document *)

Lemma operation_record_dict (op : dict) :
  operation_record (VDict op) = Ok (normalized op).
Proof. reflexivity. Qed.

Lemma extract_method_eq (path : string) (endpoints : dict)
  (method : string) (operation : value) :
  extract_method path endpoints (method, operation)
  = if is_http_method method
    then record <- operation_record operation ;;
         set_inner endpoints path method record
    else Ok endpoints.
Proof. reflexivity. Qed.

Lemma extracted_methods_cons (method : string) (operation : value) (item : dict) :
  extracted_methods ((method, operation) :: item)
  = if is_http_method method
    then (method, record_of operation) :: extracted_methods item
    else extracted_methods item.
Proof.
  unfold extracted_methods. cbn [filter fst].
  now destruct (is_http_method method).
Qed.

Lemma set_inner_set (endpoints methods : dict) (path method : string)
  (record : value) :
  set_inner (dict_set endpoints path (VDict methods)) path method record
  = Ok (dict_set endpoints path (VDict (dict_set methods method record))).
Proof.
  unfold set_inner, py_getitem. rewrite dict_get_set_same.
  cbn [bind]. now rewrite dict_set_set.
Qed.

Lemma extract_methods_loop (path : string) (item : dict) :
  forall (endpoints : dict) (methods : dict),
    NoDup (keys methods ++ keys item) ->
    (forall method operation, In (method, operation) item ->
       is_http_method method = true -> is_dict operation) ->
    for_each (extract_method path) item (dict_set endpoints path (VDict methods))
    = Ok (dict_set endpoints path (VDict (methods ++ extracted_methods item))).
Proof.
  induction item as [|[method operation] item IH]; intros endpoints methods Hnd Hops.
  - cbn. now rewrite app_nil_r.
  - cbn [for_each]. rewrite extract_method_eq, extracted_methods_cons.
    assert (Hfresh : ~ In method (keys methods)).
    { intros HI. apply NoDup_remove_2 in Hnd. apply Hnd.
      apply in_or_app. now left. }
    assert (Hrest : forall m o, In (m, o) item ->
                      is_http_method m = true -> is_dict o).
    { intros m o HI. apply Hops. now right. }
    destruct (is_http_method method) eqn:Hm.
    + destruct (Hops method operation (or_introl eq_refl) Hm) as [op ->].
      rewrite operation_record_dict. cbn [bind].
      rewrite set_inner_set. cbn [bind].
      rewrite (dict_set_fresh methods) by exact Hfresh.
      rewrite IH; [|rewrite keys_app, <- app_assoc; exact Hnd|exact Hrest].
      cbn [record_of]. now rewrite <- app_assoc.
    + cbn [bind]. apply IH; [|exact Hrest].
      apply NoDup_remove_1 in Hnd. exact Hnd.
Qed.

Lemma extract_paths_loop (paths : dict) :
  forall endpoints : dict,
    NoDup (keys endpoints ++ keys paths) ->
    (forall path path_data, In (path, path_data) paths -> path_item path_data) ->
    for_each extract_path paths endpoints
    = Ok (endpoints ++ map (fun e => (fst e, extracted_item (snd e))) paths).
Proof.
  induction paths as [|[path path_data] paths IH]; intros endpoints Hnd Hitems.
  - simpl. now rewrite app_nil_r.
  - simpl.
    destruct (Hitems path path_data (or_introl eq_refl)) as (item & -> & Hni & Hops).
    cbn [bind py_items].
    rewrite (extract_methods_loop path item endpoints []) by (simpl; auto).
    cbn [bind app extracted_item snd fst map].
    assert (Hfresh : ~ In path (keys endpoints)).
    { intros HI. apply NoDup_remove_2 in Hnd. apply Hnd.
      apply in_or_app. now left. }
    rewrite dict_set_fresh by exact Hfresh.
    rewrite IH.
    + now rewrite <- app_assoc.
    + rewrite keys_app. simpl. rewrite <- app_assoc. exact Hnd.
    + intros p d HI. apply (Hitems p d). now right.
Qed.

(** What [extract_endpoints] returns on a well-formed document. *)
Lemma extract_endpoints_paths (spec : value) (paths : dict) :
  paths_of spec paths ->
  extract_endpoints spec
  = Ok (map (fun e => (fst e, extracted_item (snd e))) paths).
Proof.
  intros (Hget & Hnd & Hitems). unfold extract_endpoints.
  rewrite Hget. cbn [bind py_items].
  now rewrite (extract_paths_loop paths []).
Qed.

Lemma normalized_fields (op : dict) :
  exists record, normalized op = VDict record /\
    keys record = keys field_defaults /\
    forall field default, In (field, default) field_defaults ->
      dict_get record field = Some (default_get op field default).
Proof.
  eexists. split; [reflexivity|]. split; [reflexivity|].
  intros field default H. simpl in H.
  repeat (destruct H as [H|H]; [injection H as <- <-; reflexivity|]).
  contradiction.
Qed.

Lemma keys_map_snd {V W : Type} (f : V -> W) (d : list (string * V)) :
  keys (map (fun e => (fst e, f (snd e))) d) = keys d.
Proof.
  unfold keys. rewrite map_map. apply map_ext. reflexivity.
Qed.

Lemma keys_extracted_methods (item : dict) :
  keys (extracted_methods item) = filter is_http_method (keys item).
Proof.
  unfold extracted_methods. rewrite keys_map_snd.
  induction item as [|[k v] item IH]; [reflexivity|].
  cbn [filter keys map fst]. destruct (is_http_method k); cbn [keys map fst]; now f_equal.
Qed.

Lemma NoDup_filter {A : Type} (f : A -> bool) (l : list A) :
  NoDup l -> NoDup (filter f l).
Proof.
  induction 1 as [|x l Hx Hl IH]; simpl; [constructor|].
  destruct (f x); [|exact IH].
  constructor; [|exact IH]. intros HI. apply filter_In in HI. tauto.
Qed.

Lemma In_extracted_methods (item : dict) (method : string) (operation : value) :
  In (method, operation) item -> is_http_method method = true ->
  In (method, record_of operation) (extracted_methods item).
Proof.
  intros HI Hm. unfold extracted_methods.
  apply (in_map (fun e => (fst e, record_of (snd e))) _ (method, operation)).
  apply filter_In. now split.
Qed.

(** C4.  On a document whose path items and operations are objects,
    [extract_endpoints] raises nothing; every path item keeps one entry,
    and in it every key that is, in lower case, one of get, post, put,
    delete, patch has exactly one record, whose seven fields are those of
    the operation or, for an absent one, its empty default; a key that is
    not such a method name (parameters, $ref) has no entry. *)
Theorem extract_endpoints_methods (spec : value) (paths : dict) :
  paths_of spec paths ->
  exists endpoints,
    extract_endpoints spec = Ok endpoints /\
    forall path item, In (path, VDict item) paths ->
      count_occ string_dec (keys endpoints) path = 1%nat /\
      exists methods,
        dict_get endpoints path = Some (VDict methods) /\
        (forall method op,
           In (method, VDict op) item -> is_http_method method = true ->
           count_occ string_dec (keys methods) method = 1%nat /\
           exists record,
             dict_get methods method = Some (VDict record) /\
             keys record = keys field_defaults /\
             forall field default, In (field, default) field_defaults ->
               dict_get record field = Some (default_get op field default)) /\
        (forall key, is_http_method key = false -> ~ In key (keys methods)).
Proof.
  intros Hp. pose proof (extract_endpoints_paths spec paths Hp) as Hex.
  destruct Hp as (_ & Hnd & Hitems).
  eexists. split; [exact Hex|].
  intros path item HI.
  assert (Hkeys : keys (map (fun e => (fst e, extracted_item (snd e))) paths)
                  = keys paths) by apply keys_map_snd.
  split.
  { rewrite Hkeys. apply NoDup_count_occ'; [exact Hnd|].
    now apply In_keys with (VDict item). }
  destruct (Hitems path (VDict item) HI) as (item' & E & Hni & Hops).
  injection E as <-.
  exists (extracted_methods item). split; [|split].
  - apply In_dict_get; [now rewrite Hkeys|].
    apply (in_map (fun e => (fst e, extracted_item (snd e))) _ (path, VDict item)).
    exact HI.
  - intros method op HIm Hm.
    assert (Hndm : NoDup (keys (extracted_methods item))).
    { rewrite keys_extracted_methods. now apply NoDup_filter. }
    pose proof (In_extracted_methods item method (VDict op) HIm Hm) as HIe.
    split.
    { apply NoDup_count_occ'; [exact Hndm|]. now apply In_keys in HIe. }
    destruct (normalized_fields op) as (record & Hrec & Hk & Hf).
    exists record. split; [|now split].
    apply In_dict_get; [exact Hndm|].
    cbn [record_of] in HIe. now rewrite <- Hrec.
  - intros key Hk HIk. rewrite keys_extracted_methods in HIk.
    apply filter_In in HIk. destruct HIk as [_ HIk]. congruence.
Qed.

Ltac nodup_keys :=
  repeat (constructor; [simpl; intuition discriminate|]); constructor.

Lemma sample_paths_of : paths_of sample_spec sample_paths.
Proof.
  split; [reflexivity|]. split; [unfold sample_paths; nodup_keys|].
  intros path path_data H. simpl in H.
  repeat (destruct H as [H|H];
          [injection H as <- <-; eexists; split; [reflexivity|];
           split; [nodup_keys|];
           intros m o Hm; simpl in Hm;
           repeat (destruct Hm as [Hm|Hm];
                   [injection Hm as <- <-; intros Hh;
                    first [discriminate Hh | eexists; reflexivity]|]);
           contradiction|]).
  contradiction.
Qed.

Lemma extract_endpoints_methods_witness :
  paths_of sample_spec sample_paths /\
  exists endpoints, extract_endpoints sample_spec = Ok endpoints.
Proof.
  split; [exact sample_paths_of|].
  destruct (extract_endpoints_methods sample_spec sample_paths sample_paths_of)
    as (endpoints & H & _).
  exists endpoints. exact H.
Defined.

(** ** The method keys of the extracted map *)

Lemma In_dict_set {V : Type} (d : list (string * V)) (k k' : string) (v v' : V) :
  In (k', v') (dict_set d k v) -> (k' = k /\ v' = v) \/ In (k', v') d.
Proof.
  induction d as [|[k0 v0] d IH]; simpl.
  - intros [E|[]]. injection E as <- <-. now left.
  - destruct (String.eqb_spec k0 k) as [->|Hne]; simpl.
    + intros [E|H]; [injection E as <- <-; now left|right; now right].
    + intros [E|H]; [right; now left|].
      destruct (IH H) as [?|?]; [now left|right; now right].
Qed.

Lemma for_each_invariant {A S : Type} (P : S -> Prop) (step : S -> A -> result S)
  (l : list A) :
  (forall s x s', P s -> step s x = Ok s' -> P s') ->
  forall s s', P s -> for_each step l s = Ok s' -> P s'.
Proof.
  intros Hstep. induction l as [|x l IH]; intros s s' Hs; simpl.
  - intros [= <-]. exact Hs.
  - destruct (step s x) as [s1|e] eqn:E; simpl; [|discriminate].
    apply IH. now apply Hstep with s x.
Qed.

Lemma extract_method_keys (path : string) (endpoints endpoints' : dict)
  (entry : string * value) :
  method_keys endpoints ->
  extract_method path endpoints entry = Ok endpoints' ->
  method_keys endpoints'.
Proof.
  destruct entry as [method operation]. rewrite extract_method_eq.
  intros Hinv. destruct (is_http_method method) eqn:Hm; [|now intros [= <-]].
  destruct (operation_record operation) as [record|e]; [|discriminate].
  cbn [bind]. unfold set_inner, py_getitem.
  destruct (dict_get endpoints path) as [inner|] eqn:Hget; [|discriminate].
  cbn [bind]. destruct inner as [| | | | |methods]; try discriminate.
  intros [= <-]. intros p ms k HI Hk.
  apply In_dict_set in HI. destruct HI as [[-> E]|HI].
  - injection E as ->.
    assert (Hk' : exists v, In (k, v) (dict_set methods method record)).
    { unfold keys in Hk. apply in_map_iff in Hk.
      destruct Hk as ([k0 v] & <- & Hk). now exists v. }
    destruct Hk' as [v Hk']. apply In_dict_set in Hk'.
    destruct Hk' as [[-> _]|Hk']; [exact Hm|].
    apply (Hinv path methods k); [now apply dict_get_In|now apply In_keys with v].
  - now apply (Hinv p ms k).
Qed.

Lemma extract_path_keys (endpoints endpoints' : dict) (entry : string * value) :
  method_keys endpoints ->
  extract_path endpoints entry = Ok endpoints' ->
  method_keys endpoints'.
Proof.
  destruct entry as [path path_data]. unfold extract_path.
  intros Hinv. destruct (py_items path_data) as [items|e]; [|discriminate].
  cbn [bind]. apply for_each_invariant.
  - intros s x s'. apply extract_method_keys.
  - intros p ms k HI Hk. apply In_dict_set in HI.
    destruct HI as [[-> E]|HI]; [injection E as ->; contradiction|].
    now apply (Hinv p ms k).
Qed.

Lemma for_each_invariant_in {A S : Type} (P : S -> Prop)
  (step : S -> A -> result S) (l : list A) :
  (forall s x s', In x l -> P s -> step s x = Ok s' -> P s') ->
  forall s s', P s -> for_each step l s = Ok s' -> P s'.
Proof.
  induction l as [|x l IH]; intros Hstep s s' Hs; simpl.
  - intros [= <-]. exact Hs.
  - destruct (step s x) as [s1|e] eqn:E; simpl; [|discriminate].
    apply IH.
    + intros s0 y s0' Hy. apply Hstep. now right.
    + apply Hstep with s x; [now left|exact Hs|exact E].
Qed.

Lemma extract_method_document_keys (paths item : dict) (path : string)
  (endpoints endpoints' : dict) (entry : string * value) :
  In (path, VDict item) paths ->
  In entry item ->
  document_keys paths endpoints ->
  extract_method path endpoints entry = Ok endpoints' ->
  document_keys paths endpoints'.
Proof.
  destruct entry as [method operation]. rewrite extract_method_eq.
  intros Hpath Hentry Hinv.
  destruct (is_http_method method); [|now intros [= <-]].
  destruct (operation_record operation) as [record|e]; [|discriminate].
  cbn [bind]. unfold set_inner, py_getitem.
  destruct (dict_get endpoints path) as [inner|] eqn:Hget; [|discriminate].
  cbn [bind]. destruct inner as [| | | | |methods]; try discriminate.
  intros [= <-]. intros p ms k HI Hk.
  apply In_dict_set in HI. destruct HI as [[-> E]|HI].
  - injection E as ->.
    assert (Hk' : exists v, In (k, v) (dict_set methods method record)).
    { unfold keys in Hk. apply in_map_iff in Hk.
      destruct Hk as ([k0 v] & <- & Hk). now exists v. }
    destruct Hk' as [v Hk']. apply In_dict_set in Hk'.
    destruct Hk' as [[-> _]|Hk'].
    + exists item. split; [exact Hpath|]. now apply In_keys with operation.
    + apply (Hinv path methods k); [now apply dict_get_In|now apply In_keys with v].
  - now apply (Hinv p ms k).
Qed.

Lemma extract_path_document_keys (paths endpoints endpoints' : dict)
  (entry : string * value) :
  In entry paths ->
  document_keys paths endpoints ->
  extract_path endpoints entry = Ok endpoints' ->
  document_keys paths endpoints'.
Proof.
  destruct entry as [path path_data]. unfold extract_path.
  intros Hentry Hinv. destruct path_data as [| | | | |item]; try discriminate.
  cbn [py_items bind]. apply for_each_invariant_in.
  - intros s x s' Hx. now apply extract_method_document_keys with item.
  - intros p ms k HI Hk. apply In_dict_set in HI.
    destruct HI as [[-> E]|HI]; [injection E as ->; contradiction|].
    now apply (Hinv p ms k).
Qed.

(** C5, as the code has it.  Every method key of the map returned by
    [extract_endpoints] is, once put in lower case, one of get, post, put,
    delete, patch; and the key is stored as the document spells it: it is,
    letter for letter, a key of the path item that the document's [paths]
    gives for the same path. *)
Theorem extract_endpoints_method_keys (spec : value) (endpoints : dict)
  (path : string) (methods : dict) (key : string) :
  extract_endpoints spec = Ok endpoints ->
  In (path, VDict methods) endpoints ->
  In key (keys methods) ->
  In (lower key) http_methods /\
  exists paths item,
    py_get spec "paths" (VDict []) = Ok (VDict paths) /\
    In (path, VDict item) paths /\
    In key (keys item).
Proof.
  unfold extract_endpoints. intros Hex HI Hk.
  destruct (py_get spec "paths" (VDict [])) as [paths|e]; [|discriminate].
  cbn [bind] in Hex. destruct paths as [| | | | |paths]; try discriminate.
  cbn [py_items bind] in Hex. split.
  - assert (Hinv : method_keys endpoints).
    { revert Hex. apply for_each_invariant.
      - intros s x s'. apply extract_path_keys.
      - intros p ms k []. }
    pose proof (Hinv path methods key HI Hk) as Hm.
    unfold is_http_method, mem_string in Hm.
    apply existsb_exists in Hm. destruct Hm as (m & Hm & E).
    apply String.eqb_eq in E. now rewrite E.
  - assert (Hinv : document_keys paths endpoints).
    { revert Hex. apply for_each_invariant_in.
      - intros s x s'. apply extract_path_document_keys.
      - intros p ms k []. }
    destruct (Hinv path methods key HI Hk) as (item & Hitem & Hkey).
    exists paths, item. now split.
Qed.

Lemma extract_sample : extract_endpoints sample_spec = Ok sample_endpoints.
Proof. reflexivity. Qed.

Lemma extract_endpoints_method_keys_witness :
  In (lower "POST") http_methods /\
  exists paths item,
    py_get sample_spec "paths" (VDict []) = Ok (VDict paths) /\
    In ("/calls", VDict item) paths /\
    In "POST" (keys item).
Proof.
  apply (extract_endpoints_method_keys sample_spec sample_endpoints "/calls"
           [("POST", normalized [])] "POST").
  - reflexivity.
  - simpl. right. left. reflexivity.
  - simpl. left. reflexivity.
Defined.

(** C5, as the specification words it, fails: the key [POST] of the
    document is kept in upper case. *)
Lemma method_keys_not_lowercase :
  ~ (forall spec endpoints path methods key,
       extract_endpoints spec = Ok endpoints ->
       In (path, VDict methods) endpoints ->
       In key (keys methods) ->
       In key http_methods).
Proof.
  intros H.
  assert (HI : In "POST" http_methods).
  { apply (H sample_spec sample_endpoints "/calls" [("POST", normalized [])]).
    - reflexivity.
    - simpl. right. left. reflexivity.
    - simpl. left. reflexivity. }
  simpl in HI. intuition discriminate.
Qed.

(** ** search_endpoints *)

Lemma for_io_app {A : Type} (body : A -> io unit) (l1 l2 : list A) (w : world) :
  for_io body (l1 ++ l2) w
  = match for_io body l1 w with
    | (Ok _, w1) => for_io body l2 w1
    | (Raise e, w1) => (Raise e, w1)
    end.
Proof.
  revert w. induction l1 as [|x l1 IH]; intros w; [reflexivity|].
  cbn [app for_io]. unfold io_bind.
  destruct (body x w) as [[[]|e] w1]; [apply IH|reflexivity].
Qed.

Lemma add_probes_nil (w : world) : add_probes w [] = w.
Proof. destruct w. unfold add_probes. cbn. now rewrite app_nil_r. Qed.

Lemma add_probes_app (w : world) (l l' : list string) :
  add_probes (add_probes w l) l' = add_probes w (l ++ l').
Proof. unfold add_probes. cbn. now rewrite app_assoc. Qed.

Lemma add_stdout_nil (w : world) : add_stdout w [] = w.
Proof. destruct w. unfold add_stdout. cbn. now rewrite app_nil_r. Qed.

Lemma add_stdout_app (w : world) (l l' : list string) :
  add_stdout (add_stdout w l) l' = add_stdout w (l ++ l').
Proof. unfold add_stdout. cbn. now rewrite app_assoc. Qed.

Lemma print_add (line : string) (w : world) : print line w = (Ok tt, add_stdout w [line]).
Proof. reflexivity. Qed.

Section SearchText.

Variable lib : pylib.
Variable pattern : string -> bool.

Lemma search_text_miss (path method : string) (details : value) (rest : dict)
  (w : world) :
  no_text_match pattern details ->
  search_text lib pattern path ((method, details) :: rest) w
  = search_text lib pattern path rest (add_probes w (text_probes pattern details)).
Proof.
  intros ((Hs & Hd) & Ps & Pd). unfold text_probes. rewrite Ps.
  cbn [search_text]. unfold io_bind, lift. rewrite Hs. cbn [search].
  rewrite Ps. unfold io_bind, lift. rewrite Hd. cbn [search]. rewrite Pd.
  unfold add_probes. cbn [stdout stderr probes]. now rewrite <- app_assoc.
Qed.

Lemma search_text_hit (path method : string) (details : value) (rest : dict)
  (w : world) :
  text_record details ->
  pattern (text_field details "summary")
  || pattern (text_field details "description") = true ->
  search_text lib pattern path ((method, details) :: rest) w
  = (Ok tt,
     add_stdout (add_probes w (text_probes pattern details))
       [(nl ++ path)%string;
        ("  " ++ upper method ++ ": " ++ text_field details "summary")%string]).
Proof.
  intros (Hs & Hd) Hhit. unfold text_probes.
  cbn [search_text]. unfold io_bind, lift. rewrite Hs. cbn [search].
  destruct (pattern (text_field details "summary")) eqn:Ps.
  - unfold ret, print, add_stdout, add_probes. cbn [stdout stderr probes fmt].
    now rewrite <- app_assoc.
  - cbn [orb] in Hhit. unfold io_bind, lift. rewrite Hd. cbn [search].
    rewrite Hhit. unfold print, add_stdout, add_probes.
    cbn [stdout stderr probes fmt]. now rewrite <- !app_assoc.
Qed.

Lemma search_text_first (path method : string) (details : value)
  (before after : dict) :
  forall w,
    Forall (fun e => no_text_match pattern (snd e)) before ->
    text_record details ->
    pattern (text_field details "summary")
    || pattern (text_field details "description") = true ->
    search_text lib pattern path (before ++ (method, details) :: after) w
    = (Ok tt,
       add_stdout
         (add_probes w (flat_map (fun e => text_probes pattern (snd e)) before
                        ++ text_probes pattern details))
         [(nl ++ path)%string;
          ("  " ++ upper method ++ ": " ++ text_field details "summary")%string]).
Proof.
  induction before as [|[m d] before IH]; intros w Hmiss Htext Hhit.
  - cbn [app flat_map]. now apply search_text_hit.
  - inversion Hmiss as [|? ? Hd Hrest]; subst. cbn [snd] in Hd.
    cbn [app flat_map snd]. rewrite search_text_miss by exact Hd.
    rewrite IH by assumption. now rewrite add_probes_app, app_assoc.
Qed.

Lemma search_text_none (path : string) (methods : dict) :
  forall w,
    Forall (fun e => no_text_match pattern (snd e)) methods ->
    search_text lib pattern path methods w
    = (Ok tt,
       add_probes w (flat_map (fun e => text_probes pattern (snd e)) methods)).
Proof.
  induction methods as [|[m d] methods IH]; intros w Hmiss.
  - cbn. now rewrite add_probes_nil.
  - inversion Hmiss as [|? ? Hd Hrest]; subst. cbn [snd] in Hd.
    cbn [flat_map snd]. rewrite search_text_miss by exact Hd.
    rewrite IH by assumption. now rewrite add_probes_app.
Qed.

End SearchText.

Lemma search_endpoint_text (lib : pylib) (pattern : string -> bool)
  (path method : string) (details : value) (before after : dict) (w : world) :
  pattern path = false ->
  Forall (fun e => no_text_match pattern (snd e)) before ->
  text_record details ->
  pattern (text_field details "summary")
  || pattern (text_field details "description") = true ->
  search_endpoint lib pattern
    (path, VDict (before ++ (method, details) :: after)) w
  = (Ok tt,
     add_stdout
       (add_probes w (path :: flat_map (fun e => text_probes pattern (snd e)) before
                      ++ text_probes pattern details))
       [(nl ++ path)%string;
        ("  " ++ upper method ++ ": " ++ text_field details "summary")%string]).
Proof.
  intros Hpath Hmiss Htext Hhit. unfold search_endpoint.
  unfold io_bind at 1. cbn [search]. rewrite Hpath.
  unfold io_bind at 1. unfold ret at 1.
  unfold io_bind at 1. unfold lift, py_items.
  rewrite search_text_first by assumption.
  change (mk_world (stdout w) (stderr w) (probes w ++ [path]))
    with (add_probes w [path]).
  now rewrite add_probes_app.
Qed.

(** C6.  An endpoint whose path does not match and that has a method whose
    summary or description matches is reported once, by two lines: its
    path and the first such method in the order of the method map.  The
    pattern is applied to the path, to the text of the methods before that
    one and to its own; the methods after it are not looked at. *)
Theorem search_endpoints_first_text_match (lib : pylib) (pat : string)
  (pattern : string -> bool) (earlier later : dict)
  (path method : string) (details : value) (before after : dict)
  (w w1 : world) :
  re_compile lib pat = Some pattern ->
  for_io (search_endpoint lib pattern) earlier
    (add_stdout w [(nl ++ "Matching Endpoints:")%string]) = (Ok tt, w1) ->
  pattern path = false ->
  Forall (fun e => no_text_match pattern (snd e)) before ->
  text_record details ->
  pattern (text_field details "summary")
  || pattern (text_field details "description") = true ->
  search_endpoints lib
    (earlier ++ (path, VDict (before ++ (method, details) :: after)) :: later)
    pat w
  = for_io (search_endpoint lib pattern) later
      (add_stdout
         (add_probes w1
            (path :: flat_map (fun e => text_probes pattern (snd e)) before
             ++ text_probes pattern details))
         [(nl ++ path)%string;
          ("  " ++ upper method ++ ": " ++ text_field details "summary")%string]).
Proof.
  intros Hc Hearlier Hpath Hmiss Htext Hhit.
  unfold search_endpoints. rewrite Hc.
  unfold io_bind at 1. unfold print at 1. fold (add_stdout w [(nl ++ "Matching Endpoints:")%string]).
  rewrite for_io_app, Hearlier. cbn [for_io]. unfold io_bind at 1.
  now rewrite search_endpoint_text by assumption.
Qed.

Lemma search_endpoints_first_text_match_witness :
  search_endpoints literal_lib sample_endpoints "list" empty_world
  = for_io (search_endpoint literal_lib list_pattern)
      [("/calls", VDict [("POST", normalized [])]); ("/health", VDict [])]
      (mk_world [(nl ++ "Matching Endpoints:")%string; (nl ++ "/users")%string;
                 "  GET: List users"]
                [] ["/users"; "List users"]).
Proof.
  exact (search_endpoints_first_text_match literal_lib "list" list_pattern
           [] [("/calls", VDict [("POST", normalized [])]); ("/health", VDict [])]
           "/users" "get"
           (normalized [("summary", VStr "List users");
                        ("tags", VList [VStr "Users"])])
           [] [] empty_world
           (add_stdout empty_world [(nl ++ "Matching Endpoints:")%string])
           eq_refl eq_refl eq_refl (Forall_nil _) (conj eq_refl eq_refl)
           eq_refl).
Defined.

Lemma for_io_report_method (lib : pylib) (methods : dict) :
  (forall method details, In (method, details) methods -> text_record details) ->
  forall w,
    for_io (report_method lib) methods w
    = (Ok tt, add_stdout w (map method_line methods)).
Proof.
  induction methods as [|[m d] methods IH]; intros Htext w.
  - cbn [for_io map]. unfold ret. now rewrite add_stdout_nil.
  - cbn [for_io map]. unfold io_bind at 1.
    assert (Hs : is_text d "summary") by (apply (Htext m d); now left).
    unfold report_method at 1. unfold io_bind, lift. rewrite Hs.
    cbn [fmt]. rewrite print_add, IH.
    + now rewrite add_stdout_app.
    + intros m' d' HI. apply (Htext m'). now right.
Qed.

(** C3: the code departs from the claim.  After the lines of a matching
    path, lines 124-128, the loop over the text fields of lines 130-135
    runs all the same: the [continue] of line 128 belongs to the inner
    loop.  The summaries and descriptions of the endpoint are searched,
    and a match there reports the endpoint a second time. *)
Theorem search_endpoints_path_match_falls_through (lib : pylib) (pat : string)
  (pattern : string -> bool) (earlier later : dict) (path : string)
  (methods : dict) (w w1 : world) :
  re_compile lib pat = Some pattern ->
  for_io (search_endpoint lib pattern) earlier
    (add_stdout w [(nl ++ "Matching Endpoints:")%string]) = (Ok tt, w1) ->
  pattern path = true ->
  (forall method details, In (method, details) methods -> text_record details) ->
  search_endpoints lib (earlier ++ (path, VDict methods) :: later) pat w
  = match search_text lib pattern path methods
            (add_stdout (add_probes w1 [path])
               ((nl ++ path)%string :: map method_line methods)) with
    | (Ok _, w2) => for_io (search_endpoint lib pattern) later w2
    | (Raise e, w2) => (Raise e, w2)
    end.
Proof.
  intros Hc Hearlier Hpath Htext.
  unfold search_endpoints. rewrite Hc.
  unfold io_bind at 1. rewrite print_add.
  rewrite for_io_app, Hearlier. cbn [for_io]. unfold io_bind at 1.
  unfold search_endpoint at 1.
  unfold io_bind at 1. cbn [search]. rewrite Hpath.
  unfold io_bind at 1. unfold io_bind at 1. rewrite print_add.
  unfold io_bind at 1. unfold lift at 1. cbn [py_items].
  rewrite for_io_report_method by exact Htext.
  unfold io_bind at 1. unfold lift at 1. cbn [py_items].
  rewrite add_stdout_app. reflexivity.
Qed.

Lemma search_endpoints_path_match_falls_through_witness :
  search_endpoints literal_lib
    [("/users", VDict [("get", normalized [("summary", VStr "List users")])])]
    "users" empty_world
  = (Ok tt,
     mk_world [(nl ++ "Matching Endpoints:")%string;
               (nl ++ "/users")%string; "  GET: List users";
               (nl ++ "/users")%string; "  GET: List users"]
              [] ["/users"; "List users"]).
Proof.
  assert (Htext : forall method details,
            In (method, details)
               [("get", normalized [("summary", VStr "List users")])] ->
            text_record details).
  { intros method details [E|[]]. injection E as <- <-. split; reflexivity. }
  etransitivity.
  - exact (search_endpoints_path_match_falls_through literal_lib "users"
             (fun s => contains "users" (lower s)) [] [] "/users"
             [("get", normalized [("summary", VStr "List users")])]
             empty_world
             (add_stdout empty_world [(nl ++ "Matching Endpoints:")%string])
             eq_refl eq_refl eq_refl Htext).
  - reflexivity.
Defined.

(** ** When search_endpoints raises *)

Lemma for_io_total {A : Type} (body : A -> io unit) (l : list A) :
  (forall x w, In x l -> exists w', body x w = (Ok tt, w')) ->
  forall w, exists w', for_io body l w = (Ok tt, w').
Proof.
  induction l as [|x l IH]; intros Hbody w.
  - exists w. reflexivity.
  - cbn [for_io]. unfold io_bind.
    destruct (Hbody x w (or_introl eq_refl)) as [w1 ->].
    apply IH. intros y w' Hy. apply Hbody. now right.
Qed.

Lemma report_method_total (lib : pylib) (method : string) (details : value)
  (w : world) :
  text_record details ->
  exists w', report_method lib (method, details) w = (Ok tt, w').
Proof.
  intros [Hs _]. unfold report_method, io_bind, lift. rewrite Hs.
  eexists. reflexivity.
Qed.

Lemma search_text_total (lib : pylib) (pattern : string -> bool) (path : string)
  (methods : dict) :
  (forall method details, In (method, details) methods -> text_record details) ->
  forall w, exists w', search_text lib pattern path methods w = (Ok tt, w').
Proof.
  induction methods as [|[m d] methods IH]; intros Htext w.
  - exists w. reflexivity.
  - assert (Hd : text_record d) by (apply (Htext m); now left).
    destruct (pattern (text_field d "summary")
              || pattern (text_field d "description")) eqn:Hhit.
    + rewrite search_text_hit by assumption. eexists. reflexivity.
    + apply orb_false_elim in Hhit. destruct Hhit as [Ps Pd].
      rewrite search_text_miss by (repeat split; try apply Hd; assumption).
      apply IH. intros m' d' HI. apply (Htext m'). now right.
Qed.

Lemma search_endpoint_total (lib : pylib) (pattern : string -> bool)
  (path : string) (items : dict) (w : world) :
  (forall method details, In (method, details) items -> text_record details) ->
  exists w', search_endpoint lib pattern (path, VDict items) w = (Ok tt, w').
Proof.
  intros Htext. unfold search_endpoint.
  unfold io_bind at 1. cbn [search].
  destruct (pattern path).
  - unfold io_bind at 1. unfold io_bind at 1. unfold print at 1.
    unfold io_bind at 1. unfold lift at 1. cbn [py_items].
    match goal with
    | |- context [for_io (report_method lib) items ?w0] =>
        destruct (for_io_total (report_method lib) items) with (w := w0)
          as [w1 ->]
    end.
    { intros [m d] w' HI. apply report_method_total. now apply (Htext m). }
    unfold io_bind, lift. cbn [py_items]. now apply search_text_total.
  - unfold io_bind at 1. unfold ret at 1.
    unfold io_bind, lift. cbn [py_items]. now apply search_text_total.
Qed.

(** C10.  A pattern the library does not compile makes [search_endpoints]
    raise before anything is printed, the heading included.  With a
    pattern that compiles, and an endpoint map whose summaries and
    descriptions are strings, the search ends normally. *)
Theorem search_endpoints_raises_on_bad_pattern (lib : pylib) (endpoints : dict)
  (pat : string) (w : world) :
  (re_compile lib pat = None ->
   search_endpoints lib endpoints pat w = (Raise ReError, w)) /\
  (forall pattern, re_compile lib pat = Some pattern ->
   text_endpoints endpoints ->
   exists w', search_endpoints lib endpoints pat w = (Ok tt, w')).
Proof.
  split.
  - intros Hc. unfold search_endpoints. now rewrite Hc.
  - intros pattern Hc Htext. unfold search_endpoints. rewrite Hc.
    unfold io_bind, print. apply for_io_total.
    intros [path methods] w' HI.
    destruct (Htext path methods HI) as (items & -> & Hitems).
    now apply search_endpoint_total.
Qed.

Lemma sample_text_endpoints : text_endpoints sample_endpoints.
Proof.
  intros path methods H. simpl in H.
  repeat (destruct H as [H|H];
          [injection H as <- <-; eexists; split; [reflexivity|];
           intros m d Hm; simpl in Hm;
           repeat (destruct Hm as [Hm|Hm];
                   [injection Hm as <- <-; split; reflexivity|]);
           contradiction|]).
  contradiction.
Qed.

Lemma search_endpoints_raises_on_bad_pattern_witness :
  search_endpoints literal_lib sample_endpoints "(" empty_world
  = (Raise ReError, empty_world) /\
  exists w', search_endpoints literal_lib sample_endpoints "users" empty_world
             = (Ok tt, w').
Proof.
  split.
  - apply (search_endpoints_raises_on_bad_pattern literal_lib sample_endpoints
             "(" empty_world).
    reflexivity.
  - apply (proj2 (search_endpoints_raises_on_bad_pattern literal_lib
                    sample_endpoints "users" empty_world)
             (fun s => contains "users" (lower s))).
    + reflexivity.
    + exact sample_text_endpoints.
Defined.

(** ** Lookups of an absent key *)

(** C7.  Looking up a path that is not a key of the endpoint map, or a
    schema name that is not in [components.schemas], writes one line to
    the error stream and returns; nothing goes to the standard output and
    no exception is raised. *)
Theorem absent_key_is_reported (lib : pylib) (w : world) :
  (forall endpoints path,
     ~ In path (keys endpoints) ->
     show_endpoint_details lib endpoints path w
     = (Ok tt, mk_world (stdout w)
                 (stderr w ++ [("Endpoint " ++ path ++ " not found")%string])
                 (probes w))) /\
  (forall spec components schemas name,
     py_get spec "components" (VDict []) = Ok components ->
     py_get components "schemas" (VDict []) = Ok schemas ->
     py_in name schemas = Ok false ->
     print_schema lib spec name w
     = (Ok tt, mk_world (stdout w)
                 (stderr w ++ [("Schema '" ++ name ++ "' not found")%string])
                 (probes w))).
Proof.
  split.
  - intros endpoints path Habs. unfold show_endpoint_details, dict_mem.
    apply dict_get_None in Habs. now rewrite Habs.
  - intros spec components schemas name Hc Hs Hin.
    unfold print_schema, io_bind, lift. now rewrite Hc, Hs, Hin.
Qed.

Lemma absent_key_is_reported_witness :
  show_endpoint_details literal_lib sample_endpoints "/nowhere" empty_world
  = (Ok tt, mk_world [] ["Endpoint /nowhere not found"] []) /\
  print_schema literal_lib sample_spec "Foo" empty_world
  = (Ok tt, mk_world [] ["Schema 'Foo' not found"] []).
Proof.
  split.
  - apply (proj1 (absent_key_is_reported literal_lib empty_world)).
    simpl. intuition discriminate.
  - apply (proj2 (absent_key_is_reported literal_lib empty_world)
             sample_spec (VDict [("schemas", VDict [("User", VDict [])])])
             (VDict [("User", VDict [])]) "Foo"); reflexivity.
Defined.

(** ** group_by_tag *)

Lemma bucket_total_append (grouped : buckets) (tag : value) (record : tag_record) :
  bucket_total (bucket_append grouped tag record) = S (bucket_total grouped).
Proof.
  induction grouped as [|[t records] grouped IH]; [reflexivity|].
  cbn [bucket_append]. destruct (key_eqb t tag); cbn [bucket_total fold_right snd].
  - rewrite length_app. cbn [length]. lia.
  - fold (bucket_total (bucket_append grouped tag record)). rewrite IH.
    fold (bucket_total grouped). lia.
Qed.

Lemma add_tags_total (path method : string) (details : value) (tags : list value) :
  forall grouped grouped',
    for_each (add_tag path method details) tags grouped = Ok grouped' ->
    bucket_total grouped' = (bucket_total grouped + length tags)%nat.
Proof.
  induction tags as [|tag tags IH]; intros grouped grouped'; cbn [for_each].
  - intros [= <-]. cbn [length]. lia.
  - unfold add_tag at 1. destruct (hashable tag); [|discriminate].
    destruct (py_getitem details "summary") as [summary|e]; [|discriminate].
    cbn [bind]. intros H. apply IH in H. rewrite H, bucket_total_append.
    cbn [length]. lia.
Qed.

Lemma add_methods_total (path : string) (items : dict) :
  forall grouped grouped',
    for_each (add_method_tags path) items grouped = Ok grouped' ->
    bucket_total grouped'
    = (bucket_total grouped + list_sum (map (fun e => tag_count (snd e)) items))%nat.
Proof.
  induction items as [|[method details] items IH]; intros grouped grouped';
    cbn [for_each].
  - intros [= <-]. cbn. lia.
  - unfold add_method_tags at 1. cbn [map list_sum fold_right snd].
    unfold tag_count at 1.
    destruct (py_get details "tags" (VList [VStr "untagged"])) as [tags|e];
      [|discriminate].
    cbn [bind]. destruct (py_iter tags) as [l|e]; [|discriminate].
    cbn [bind].
    destruct (for_each (add_tag path method details) l grouped) as [g1|e] eqn:E;
      [|discriminate].
    cbn [bind]. intros H. apply IH in H. apply add_tags_total in E.
    rewrite H, E. unfold list_sum. lia.
Qed.

(** X3.  What the buckets hold in all: one record for each tag the loop
    of line 69 runs over, and none for a record whose tag list is empty. *)
Lemma group_by_tag_total (endpoints : dict) (grouped : buckets) :
  group_by_tag endpoints = Ok grouped ->
  bucket_total grouped = endpoints_tag_count endpoints.
Proof.
  unfold group_by_tag, endpoints_tag_count.
  assert (H : forall g g',
             for_each (fun grouped entry =>
                         methods <- py_items (snd entry) ;;
                         for_each (add_method_tags (fst entry)) methods grouped)
                      endpoints g = Ok g' ->
             bucket_total g'
             = (bucket_total g
                + list_sum (map (fun e => methods_tag_count (snd e)) endpoints))%nat).
  { induction endpoints as [|[path methods] endpoints IH]; intros g g';
      cbn [for_each].
    - intros [= <-]. cbn. lia.
    - cbn [fst snd map]. destruct methods as [| | | | |items]; try discriminate.
      cbn [py_items bind].
      destruct (for_each (add_method_tags path) items g) as [g1|e] eqn:E;
        [|discriminate].
      cbn [bind]. intros H. apply IH in H. apply add_methods_total in E.
      rewrite H, E. cbn [methods_tag_count list_sum fold_right].
      unfold list_sum. lia. }
  intros Hg. apply H in Hg. rewrite Hg. reflexivity.
Qed.

(** C1: the code departs from the claim.  The operation of [/health]
    declares no tags; [extract_endpoints] gives it the empty tag list, so
    the default of line 68 does not apply and the endpoint gets no record,
    under [untagged] or anywhere: the buckets hold 1 record where the
    claim counts 2. *)
Theorem group_by_tag_drops_untagged :
  let spec :=
    VDict [("paths",
            VDict [("/users", VDict [("get", VDict [("tags", VList [VStr "Users"])])]);
                   ("/health", VDict [("get", VDict [])])])] in
  exists endpoints grouped,
    extract_endpoints spec = Ok endpoints /\
    group_by_tag endpoints = Ok grouped /\
    grouped = [(VStr "Users", [mk_tag_record "/users" "GET" (VStr "")])] /\
    bucket_get grouped (VStr "untagged") = [] /\
    bucket_total grouped = 1%nat.
Proof.
  do 2 eexists. split; [reflexivity|]. split; [reflexivity|].
  split; [reflexivity|]. split; reflexivity.
Qed.

(** ** Sorting *)

Section Sorting.

Context {A : Type} (key : A -> string).

Lemma insert_by_perm (x : A) (l : list A) : Permutation (x :: l) (insert_by key x l).
Proof.
  induction l as [|y l IH]; cbn [insert_by]; [reflexivity|].
  destruct (String.leb (key y) (key x)); [|reflexivity].
  rewrite perm_swap. now apply perm_skip.
Qed.

Lemma insert_by_hd (x y : A) (l : list A) :
  key_le key y x -> HdRel (key_le key) y l ->
  HdRel (key_le key) y (insert_by key x l).
Proof.
  intros Hyx Hl. destruct l as [|z l]; cbn [insert_by].
  - now constructor.
  - destruct (String.leb (key z) (key x)); constructor; [|exact Hyx].
    now inversion Hl.
Qed.

Lemma insert_by_sorted (x : A) (l : list A) :
  Sorted (key_le key) l -> Sorted (key_le key) (insert_by key x l).
Proof.
  induction 1 as [|y l Hl IH Hhd]; cbn [insert_by].
  - repeat constructor.
  - destruct (String.leb (key y) (key x)) eqn:E.
    + constructor; [exact IH|]. now apply insert_by_hd.
    + constructor; [now constructor|]. constructor.
      destruct (String.leb_total (key x) (key y)) as [H|H]; [exact H|congruence].
Qed.

Lemma sorted_by_spec (l : list A) :
  Permutation l (sorted_by key l) /\ Sorted (key_le key) (sorted_by key l).
Proof.
  unfold sorted_by.
  assert (H : forall acc, Sorted (key_le key) acc ->
            Permutation (acc ++ l) (fold_left (fun acc x => insert_by key x acc) l acc)
            /\ Sorted (key_le key)
                 (fold_left (fun acc x => insert_by key x acc) l acc)).
  { induction l as [|x l IH]; intros acc Hacc; cbn [fold_left].
    - rewrite app_nil_r. now split.
    - destruct (IH (insert_by key x acc) (insert_by_sorted x acc Hacc)) as [Hp Hs].
      split; [|exact Hs]. rewrite <- Hp.
      rewrite <- Permutation_middle.
      apply (Permutation_app_tail l (insert_by_perm x acc)). }
  apply (H []). constructor.
Qed.

End Sorting.

(** ** show_category_details *)

Lemma for_io_lines {A : Type} (body : A -> io unit) (lines : A -> list string)
  (l : list A) :
  (forall x w, body x w = (Ok tt, add_stdout w (lines x))) ->
  forall w, for_io body l w = (Ok tt, add_stdout w (flat_map lines l)).
Proof.
  intros Hbody. induction l as [|x l IH]; intros w; cbn [for_io flat_map].
  - unfold ret. now rewrite add_stdout_nil.
  - unfold io_bind. now rewrite Hbody, IH, add_stdout_app.
Qed.

Lemma matching_tags_filter (lib : pylib) (category : string) (grouped : buckets)
  (matches : list value) :
  matching_tags lib category grouped = Ok matches ->
  Forall is_str (map fst grouped) /\
  matches = filter (fun tag => contains (str_lower lib category) (str_lower lib (tag_text tag)))
                   (map fst grouped).
Proof.
  unfold matching_tags. generalize (map fst grouped) as tags.
  intros tags.
  assert (H : forall acc,
            for_each (fun acc tag =>
                        match tag with
                        | VStr name =>
                            Ok (if contains (str_lower lib category) (str_lower lib name)
                                then acc ++ [tag] else acc)
                        | _ => Raise AttributeError
                        end) tags acc = Ok matches ->
            Forall is_str tags /\
            matches = acc ++ filter (fun tag => contains (str_lower lib category)
                                         (str_lower lib (tag_text tag))) tags).
  { induction tags as [|tag tags IH]; intros acc; cbn [for_each filter].
    - intros [= <-]. split; [constructor|now rewrite app_nil_r].
    - destruct tag as [| | |name| |]; try discriminate.
      cbn [bind tag_text]. intros H. apply IH in H. destruct H as [Hs ->].
      split; [constructor; [now exists name|exact Hs]|].
      destruct (contains (str_lower lib category) (str_lower lib name)); [|reflexivity].
      now rewrite <- app_assoc. }
  intros Hm. now apply H in Hm.
Qed.

Section Category.

Variable lib : pylib.

Lemma for_io_print_tag (tags : list value) (w : world) :
  for_io (print_tag lib) tags w = (Ok tt, add_stdout w (map (tag_line lib) tags)).
Proof.
  rewrite (for_io_lines (print_tag lib) (fun tag => [tag_line lib tag]))
    by reflexivity.
  replace (flat_map (fun tag => [tag_line lib tag]) tags)
    with (map (tag_line lib) tags);
    [reflexivity|].
  induction tags as [|tag tags IH]; [reflexivity|].
  cbn [flat_map map app]. now rewrite IH.
Qed.

Lemma for_io_print_summary (records : list tag_record) (w : world) :
  for_io (print_summary lib) records w
  = (Ok tt, add_stdout w (flat_map (summary_lines lib) records)).
Proof.
  apply for_io_lines. intros endpoint w'.
  unfold print_summary, io_bind. now rewrite !print_add, add_stdout_app.
Qed.

End Category.

(** ** group_by_path *)

Lemma split_cons (c : ascii) (s : string) :
  exists piece rest, split c s = piece :: rest.
Proof.
  destruct s as [|a s]; cbn [split]; [now eexists; eexists|].
  destruct (Ascii.eqb a c); [now eexists; eexists|].
  destruct (split c s); now eexists; eexists.
Qed.

Lemma concat_cons (sep piece : string) (rest : list string) :
  rest <> [] ->
  String.concat sep (piece :: rest) = (piece ++ sep ++ String.concat sep rest)%string.
Proof. destruct rest; [congruence|reflexivity]. Qed.

(** Joining the pieces of a split gives the string back. *)
Lemma join_split (c : ascii) (s : string) :
  join (String c EmptyString) (split c s) = s.
Proof.
  unfold join. induction s as [|a s IH]; [reflexivity|].
  cbn [split]. destruct (split_cons c s) as (piece & rest & E).
  rewrite E in *.
  destruct (Ascii.eqb_spec a c) as [->|Hne]; cbv beta iota.
  - rewrite concat_cons by discriminate. now rewrite IH.
  - destruct rest as [|piece' rest].
    + cbn in *. now rewrite IH.
    + rewrite concat_cons by discriminate.
      rewrite concat_cons in IH by discriminate.
      rewrite <- IH. reflexivity.
Qed.

Lemma path_parts_strip (path : string) :
  join "/" (path_parts path) = strip "/" path.
Proof. apply join_split. Qed.

Lemma NoDup_keys_dict_set {V : Type} (d : list (string * V)) (k : string) (v : V) :
  NoDup (keys d) -> NoDup (keys (dict_set d k v)).
Proof.
  intros Hnd. destruct (in_dec string_dec k (keys d)) as [HI|HI].
  - now rewrite keys_dict_set.
  - rewrite dict_set_fresh, keys_app by exact HI. cbn.
    apply NoDup_app; [exact Hnd|repeat constructor; tauto|].
    intros x Hx [<-|[]]. contradiction.
Qed.

Lemma trie_empty : trie (VDict []).
Proof. constructor; [constructor|]. intros k v []. Qed.

Lemma trie_set (d : dict) (k : string) (v : value) :
  trie (VDict d) -> (k <> reserved -> trie v) -> trie (VDict (dict_set d k v)).
Proof.
  intros Ht Hv. inversion Ht as [d' Hnd Hch]; subst. constructor.
  - now apply NoDup_keys_dict_set.
  - intros k' v' HI Hk'. apply In_dict_set in HI.
    destruct HI as [[-> ->]|HI]; [now apply Hv|now apply (Hch k' v')].
Qed.

Lemma tree_methods_empty (segments : list string) :
  tree_methods (VDict []) segments = None.
Proof. now destruct segments. Qed.

(** One insertion: the node of [parts] now holds [methods], and the
    nodes of all other segment lists hold what they held. *)
Lemma insert_path_spec (methods : value) (parts : list string) :
  forall tree,
    trie tree -> ~ In reserved parts ->
    exists tree',
      insert_path parts methods tree = Ok tree' /\
      trie tree' /\
      tree_methods tree' parts = Some methods /\
      forall segments, ~ In reserved segments -> segments <> parts ->
        tree_methods tree' segments = tree_methods tree segments.
Proof.
  induction parts as [|part rest IH]; intros tree Ht Hres.
  - inversion Ht as [d Hnd Hch]; subst. cbn [insert_path py_setitem].
    eexists. split; [reflexivity|]. split; [|split].
    + apply trie_set; [exact Ht|]. intros H. now contradiction H.
    + cbn [tree_methods]. apply dict_get_set_same.
    + intros [|segment segments] Hs Hne; [congruence|].
      cbn [tree_methods]. rewrite dict_get_set_other; [reflexivity|].
      intros <-. apply Hs. now left.
  - inversion Ht as [d Hnd Hch]; subst.
    assert (Hpart : part <> reserved) by (intros ->; apply Hres; now left).
    assert (Hrest : ~ In reserved rest) by (intros H; apply Hres; now right).
    pose (child0 := match dict_get d part with Some child => child | None => VDict [] end).
    assert (Hchild0 : trie child0).
    { unfold child0. destruct (dict_get d part) as [child|] eqn:E.
      - apply (Hch part child); [now apply dict_get_In|exact Hpart].
      - apply trie_empty. }
    assert (Hlook : forall segments,
               tree_methods child0 segments
               = match dict_get d part with
                 | Some child => tree_methods child segments
                 | None => None
                 end).
    { intros segments. unfold child0.
      destruct (dict_get d part); [reflexivity|apply tree_methods_empty]. }
    destruct (IH child0 Hchild0 Hrest) as (child' & Hins & Htc & Hget & Hother).
    exists (VDict (dict_set d part child')).
    split; [|split; [|split]].
    + cbn [insert_path py_in bind]. unfold dict_mem.
      destruct (dict_get d part) as [child|] eqn:E.
      * cbn [bind py_getitem]. rewrite E. cbn [bind].
        unfold child0 in Hins. rewrite Hins. reflexivity.
      * cbn [bind py_setitem py_getitem]. rewrite dict_get_set_same.
        cbn [bind]. unfold child0 in Hins. rewrite Hins.
        cbn [bind]. now rewrite dict_set_set.
    + apply trie_set; [exact Ht|]. intros _. exact Htc.
    + cbn [tree_methods]. now rewrite dict_get_set_same.
    + intros [|segment segments] Hs Hne.
      * cbn [tree_methods]. apply dict_get_set_other. exact Hpart.
      * cbn [tree_methods]. destruct (String.eqb_spec part segment) as [<-|Hd].
        -- rewrite dict_get_set_same, <- Hlook. apply Hother.
           ++ intros H. apply Hs. now right.
           ++ intros ->. now apply Hne.
        -- now rewrite dict_get_set_other.
Qed.

(** The walk finds exactly the method maps that [tree_methods] reaches
    along segments other than the reserved key. *)
Lemma tree_nodes_spec (tree : value) :
  trie tree ->
  forall prefix segments methods,
    In (segments, methods) (tree_nodes tree prefix) <->
    exists rest, segments = prefix ++ rest /\ ~ In reserved rest /\
                 tree_methods tree rest = Some methods.
Proof.
  induction 1 as [d Hnd Hch IH]. intros prefix segments methods.
  cbn [tree_nodes]. rewrite in_flat_map. split.
  - intros ([k v] & HI & Hin). cbn [fst snd] in Hin.
    destruct (String.eqb_spec k reserved) as [->|Hk].
    + destruct Hin as [E|[]]. injection E as <- <-.
      exists []. rewrite app_nil_r. split; [reflexivity|]. split; [tauto|].
      cbn [tree_methods]. now apply In_dict_get.
    + apply (IH k v HI Hk) in Hin. destruct Hin as (rest & -> & Hres & Hget).
      exists (k :: rest). rewrite <- app_assoc. split; [reflexivity|].
      split.
      * intros [E|H]; [now apply Hk|now apply Hres].
      * cbn [tree_methods]. now rewrite (In_dict_get d k v Hnd HI).
  - intros (rest & -> & Hres & Hget). destruct rest as [|k rest].
    + cbn [tree_methods] in Hget. exists (reserved, methods).
      split; [now apply dict_get_In|].
      cbn [fst snd]. rewrite String.eqb_refl, app_nil_r. now left.
    + cbn [tree_methods] in Hget.
      destruct (dict_get d k) as [child|] eqn:E; [|discriminate].
      assert (Hk : k <> reserved) by (intros ->; apply Hres; now left).
      exists (k, child). split; [now apply dict_get_In|].
      cbn [fst snd]. destruct (String.eqb_spec k reserved); [contradiction|].
      apply (IH k child); [now apply dict_get_In|exact Hk|].
      exists rest. rewrite <- app_assoc. split; [reflexivity|].
      split; [|exact Hget]. intros H. apply Hres. now right.
Qed.

Lemma path_parts_inj (p q : string) :
  path_parts p = path_parts q -> strip "/" p = strip "/" q.
Proof.
  intros H. rewrite <- (path_parts_strip p), <- (path_parts_strip q).
  now rewrite H.
Qed.

Lemma group_by_path_loop (endpoints : dict) :
  forall (done : dict) (tree : value),
    trie tree ->
    (forall segments methods, ~ In reserved segments ->
       (tree_methods tree segments = Some methods <->
        exists path, In (path, methods) done /\ path_parts path = segments)) ->
    distinct_paths (done ++ endpoints) ->
    no_reserved_segment endpoints ->
    exists tree',
      for_each (fun grouped entry =>
                  insert_path (path_parts (fst entry)) (snd entry) grouped)
               endpoints tree = Ok tree' /\
      trie tree' /\
      forall segments methods, ~ In reserved segments ->
        (tree_methods tree' segments = Some methods <->
         exists path, In (path, methods) (done ++ endpoints) /\
                      path_parts path = segments).
Proof.
  induction endpoints as [|[path methods] endpoints IH];
    intros done tree Ht Hinv Hdist Hres.
  - exists tree. rewrite app_nil_r. split; [reflexivity|]. split; assumption.
  - cbn [for_each fst snd].
    assert (Hparts : ~ In reserved (path_parts path)).
    { apply Hres. now left. }
    destruct (insert_path_spec methods (path_parts path) tree Ht Hparts)
      as (tree1 & Hins & Ht1 & Hget & Hother).
    rewrite Hins. cbn [bind].
    assert (Hfresh : forall q m, In (q, m) done ->
                       path_parts q <> path_parts path).
    { intros q m HI E. apply path_parts_inj in E.
      unfold distinct_paths in Hdist. rewrite keys_app, map_app in Hdist.
      cbn [keys map fst] in Hdist. apply NoDup_remove_2 in Hdist.
      apply Hdist. apply in_or_app. left. rewrite <- E.
      apply in_map. now apply In_keys with m. }
    destruct (IH (done ++ [(path, methods)]) tree1 Ht1) as (tree' & Hfor & Ht' & Hinv').
    + intros segments m Hs. split.
      * intros Hm. destruct (list_eq_dec string_dec segments (path_parts path))
          as [->|Hne].
        -- exists path. split; [|reflexivity]. apply in_or_app. right.
           left. congruence.
        -- rewrite Hother in Hm by assumption. apply Hinv in Hm; [|exact Hs].
           destruct Hm as (q & HI & E). exists q. split; [|exact E].
           apply in_or_app. now left.
      * intros (q & HI & E). apply in_app_or in HI. destruct HI as [HI|[HI|[]]].
        -- rewrite Hother; [apply Hinv; [exact Hs|now exists q]|exact Hs|].
           rewrite <- E. now apply (Hfresh q m).
        -- injection HI as <- <-. now rewrite <- E.
    + now rewrite <- app_assoc.
    + intros q HI. apply Hres. now right.
    + exists tree'. split; [exact Hfor|]. split; [exact Ht'|].
      intros segments m Hs. rewrite (Hinv' segments m Hs).
      now rewrite <- app_assoc.
Qed.

(** The tree of an endpoint map with distinct paths and no reserved
    segment: the node of each path holds its method map. *)
Lemma group_by_path_methods (endpoints : dict) :
  distinct_paths endpoints -> no_reserved_segment endpoints ->
  exists tree,
    group_by_path endpoints = Ok tree /\
    trie tree /\
    forall segments methods, ~ In reserved segments ->
      (tree_methods tree segments = Some methods <->
       exists path, In (path, methods) endpoints /\ path_parts path = segments).
Proof.
  intros Hdist Hres. unfold group_by_path.
  apply (group_by_path_loop endpoints [] (VDict [])); try assumption.
  - apply trie_empty.
  - intros segments methods _. rewrite tree_methods_empty. split.
    + discriminate.
    + intros (path & [] & _).
Qed.

(** C2, as the code has it.  When the paths of the map stay distinct once
    their leading and trailing slashes are stripped and no segment is the
    reserved key, the pairs read off the tree are exactly the pairs of
    the map, each path without its leading and trailing slashes. *)
Theorem group_by_path_pairs (endpoints : dict) :
  distinct_paths endpoints ->
  no_reserved_segment endpoints ->
  exists tree,
    group_by_path endpoints = Ok tree /\
    forall path method,
      In (path, method) (tree_pairs tree) <->
      exists source, path = strip "/" source /\
                     In (source, method) (endpoint_pairs endpoints).
Proof.
  intros Hdist Hres.
  destruct (group_by_path_methods endpoints Hdist Hres) as (tree & Hg & Ht & Hm).
  exists tree. split; [exact Hg|]. intros path method.
  unfold tree_pairs, endpoint_pairs. rewrite in_flat_map. split.
  - intros ([segments methods] & Hnode & Hin). cbn [fst snd] in Hin.
    apply in_map_iff in Hin. destruct Hin as (m & E & Hname).
    injection E as <- <-.
    apply (tree_nodes_spec tree Ht) in Hnode.
    destruct Hnode as (rest & -> & Hrest & Hget). cbn [app] in *.
    apply Hm in Hget; [|exact Hrest]. destruct Hget as (source & HI & <-).
    exists source. split; [apply path_parts_strip|].
    apply in_flat_map. exists (source, methods). split; [exact HI|].
    cbn [fst snd]. now apply in_map.
  - intros (source & -> & Hin). apply in_flat_map in Hin.
    destruct Hin as ([source' methods] & HI & Hin). cbn [fst snd] in Hin.
    apply in_map_iff in Hin. destruct Hin as (m & E & Hname).
    injection E as -> ->.
    exists (path_parts source, methods). split.
    + apply (tree_nodes_spec tree Ht). exists (path_parts source).
      split; [reflexivity|]. split.
      * apply Hres. now apply In_keys with methods.
      * apply Hm; [apply Hres; now apply In_keys with methods|].
        now exists source.
    + cbn [fst snd]. rewrite path_parts_strip. now apply in_map.
Qed.

Lemma group_by_path_pairs_witness :
  exists tree,
    group_by_path sample_endpoints = Ok tree /\
    forall path method,
      In (path, method) (tree_pairs tree) <->
      exists source, path = strip "/" source /\
                     In (source, method) (endpoint_pairs sample_endpoints).
Proof.
  apply (group_by_path_pairs sample_endpoints).
  - unfold distinct_paths. cbn. nodup_keys.
  - intros path H. cbn in H.
    repeat (destruct H as [H|H]; [subst path; cbn; intuition discriminate|]).
    contradiction.
Defined.

(** C2, as the specification words it, fails: [/a] and [/a/] have the
    same segments, the method map of the second replaces that of the
    first, and the pair of [/a] with [get] is not in the tree. *)
Lemma group_by_path_loses_pairs :
  exists endpoints tree,
    extract_endpoints slash_spec = Ok endpoints /\
    group_by_path endpoints = Ok tree /\
    In ("/a", "get") (endpoint_pairs endpoints) /\
    tree_pairs tree = [("a", "post")].
Proof.
  do 2 eexists. split; [reflexivity|]. split; [reflexivity|].
  split; [|reflexivity]. cbn. now left.
Qed.

(** A segment that is the reserved key is taken for it: the method map of
    [/a/_methods] is stored inside the method map of [/a], and the walk
    reports a method called [_methods] and no [post]. *)
Lemma group_by_path_reserved_segment :
  exists endpoints tree,
    extract_endpoints
      (VDict [("paths", VDict [("/a", VDict [("get", VDict [])]);
                               ("/a/_methods", VDict [("post", VDict [])])])])
    = Ok endpoints /\
    group_by_path endpoints = Ok tree /\
    tree_pairs tree = [("a", "get"); ("a", "_methods")].
Proof.
  do 2 eexists. split; [reflexivity|]. split; reflexivity.
Qed.

(** ** Paths without operations *)

Lemma extracted_methods_none (item : dict) :
  (forall key, In key (keys item) -> is_http_method key = false) ->
  extracted_methods item = [].
Proof.
  intros H. unfold extracted_methods.
  induction item as [|[k v] item IH]; [reflexivity|].
  cbn [filter fst]. rewrite (H k) by now left.
  apply IH. intros key HI. apply H. now right.
Qed.

(** ** group_by_method *)

Lemma bucket_of_append {V : Type} (grouped : list (string * list V))
  (key key' : string) (item : V) :
  bucket_of (dict_append grouped key item) key'
  = if String.eqb key key' then bucket_of grouped key' ++ [item]
    else bucket_of grouped key'.
Proof.
  unfold bucket_of. induction grouped as [|[k items] grouped IH]; cbn [dict_append dict_get].
  - destruct (String.eqb key key'); reflexivity.
  - destruct (String.eqb_spec k key) as [->|Hk]; cbn [dict_get].
    + destruct (String.eqb_spec key key') as [->|Hne]; reflexivity.
    + destruct (String.eqb_spec k key') as [->|Hk'].
      * destruct (String.eqb_spec key key'); [congruence|reflexivity].
      * exact IH.
Qed.

Lemma keys_dict_append {V : Type} (grouped : list (string * list V))
  (key : string) (item : V) :
  keys (dict_append grouped key item)
  = if in_dec string_dec key (keys grouped) then keys grouped
    else keys grouped ++ [key].
Proof.
  induction grouped as [|[k items] grouped IH]; cbn [dict_append].
  - reflexivity.
  - destruct (String.eqb_spec k key) as [->|Hk].
    + cbn [keys map fst]. destruct (in_dec string_dec key (key :: map fst grouped)) as [_|H];
        [reflexivity|]. exfalso. apply H. now left.
    + cbn [keys map fst]. fold (keys (dict_append grouped key item)).
      rewrite IH. fold (keys grouped).
      destruct (in_dec string_dec key (keys grouped)) as [HI|HI];
        destruct (in_dec string_dec key (k :: keys grouped)) as [HI'|HI'];
        try reflexivity.
      * exfalso. apply HI'. now right.
      * exfalso. destruct HI' as [E|HI']; [now apply Hk|now apply HI].
Qed.

Lemma NoDup_keys_dict_append {V : Type} (grouped : list (string * list V))
  (key : string) (item : V) :
  NoDup (keys grouped) -> NoDup (keys (dict_append grouped key item)).
Proof.
  intros Hnd. rewrite keys_dict_append.
  destruct (in_dec string_dec key (keys grouped)) as [HI|HI]; [exact Hnd|].
  apply NoDup_app; [exact Hnd|repeat constructor; tauto|].
  intros x Hx [<-|[]]. contradiction.
Qed.

Lemma In_keys_dict_append {V : Type} (grouped : list (string * list V))
  (key key' : string) (item : V) :
  In key' (keys (dict_append grouped key item)) <->
  key' = key \/ In key' (keys grouped).
Proof.
  rewrite keys_dict_append.
  destruct (in_dec string_dec key (keys grouped)) as [HI|HI].
  - split; [now right|]. intros [->|H]; assumption.
  - rewrite in_app_iff. cbn [In]. split.
    + intros [H|[<-|[]]]; [now right|now left].
    + intros [->|H]; [right; now left|now left].
Qed.

Lemma no_empty_bucket_append {V : Type} (grouped : list (string * list V))
  (key : string) (item : V) :
  no_empty_bucket grouped -> no_empty_bucket (dict_append grouped key item).
Proof.
  intros Hne key' HI. rewrite bucket_of_append.
  destruct (String.eqb_spec key key') as [->|Hk].
  - intros H. now apply app_eq_nil in H.
  - apply Hne. apply In_keys_dict_append in HI.
    destruct HI as [->|HI]; [congruence|exact HI].
Qed.

Lemma add_method_paths (path : string) (methods : list string) :
  forall grouped,
    NoDup (keys grouped) -> no_empty_bucket grouped ->
    exists grouped',
      for_each (add_method_path path) (map VStr methods) grouped = Ok grouped' /\
      NoDup (keys grouped') /\ no_empty_bucket grouped' /\
      (forall key,
         bucket_of grouped' key
         = bucket_of grouped key
           ++ map (fun _ => path)
                  (filter (fun method => String.eqb (upper method) key) methods)) /\
      (forall key, In key (keys grouped) -> In key (keys grouped')).
Proof.
  induction methods as [|m methods IH]; intros grouped Hnd Hne.
  - exists grouped. cbn. repeat split; try assumption.
    + intros key. now rewrite app_nil_r.
    + auto.
  - cbn [map for_each add_method_path bind].
    destruct (IH (dict_append grouped (upper m) path)) as (g' & Hfor & Hnd' & Hne' & Hb & Hk).
    + now apply NoDup_keys_dict_append.
    + now apply no_empty_bucket_append.
    + exists g'. split; [exact Hfor|]. split; [exact Hnd'|]. split; [exact Hne'|].
      split.
      * intros key. rewrite Hb, bucket_of_append. cbn [filter].
        destruct (String.eqb (upper m) key); cbn [map]; [|reflexivity].
        now rewrite <- app_assoc.
      * intros key HI. apply Hk. apply In_keys_dict_append. now right.
Qed.

Lemma group_by_method_loop (endpoints : dict) :
  (forall path methods, In (path, methods) endpoints -> is_dict methods) ->
  forall grouped,
    NoDup (keys grouped) -> no_empty_bucket grouped ->
    exists grouped',
      for_each (fun grouped entry =>
                  methods <- py_iter (snd entry) ;;
                  for_each (add_method_path (fst entry)) methods grouped)
               endpoints grouped = Ok grouped' /\
      NoDup (keys grouped') /\ no_empty_bucket grouped' /\
      forall key,
        bucket_of grouped' key
        = bucket_of grouped key ++ paths_with_method endpoints key.
Proof.
  induction endpoints as [|[path methods] endpoints IH]; intros Hd grouped Hnd Hne.
  - exists grouped. cbn. repeat split; try assumption.
    intros key. now rewrite app_nil_r.
  - destruct (Hd path methods (or_introl eq_refl)) as [items ->].
    cbn [for_each fst snd py_iter bind].
    destruct (add_method_paths path (keys items) grouped Hnd Hne)
      as (g1 & Hfor1 & Hnd1 & Hne1 & Hb1 & _).
    rewrite Hfor1. cbn [bind].
    destruct (IH (fun p m HI => Hd p m (or_intror HI)) g1 Hnd1 Hne1)
      as (g' & Hfor & Hnd' & Hne' & Hb).
    exists g'. split; [exact Hfor|]. split; [exact Hnd'|]. split; [exact Hne'|].
    intros key. rewrite Hb, Hb1. unfold paths_with_method.
    cbn [flat_map fst snd method_names]. now rewrite <- app_assoc.
Qed.

(** X1.  On an endpoint map whose values are method maps,
    [group_by_method] raises nothing; the bucket of a key holds, in the
    order of the map, each path once for every method of it that is the
    key in upper case, and a key is in the grouping exactly when some
    path has such a method. *)
Theorem group_by_method_buckets (endpoints : dict) :
  (forall path methods, In (path, methods) endpoints -> is_dict methods) ->
  exists grouped,
    group_by_method endpoints = Ok grouped /\
    NoDup (keys grouped) /\
    forall key,
      bucket_of grouped key = paths_with_method endpoints key /\
      (In key (keys grouped) <-> paths_with_method endpoints key <> []).
Proof.
  intros Hd. unfold group_by_method.
  destruct (group_by_method_loop endpoints Hd []) as (g & Hfor & Hnd & Hne & Hb).
  - constructor.
  - intros key [].
  - exists g. split; [exact Hfor|]. split; [exact Hnd|].
    intros key. pose proof (Hb key) as Hkey. cbn [bucket_of dict_get app] in Hkey.
    split; [exact Hkey|]. rewrite <- Hkey. split.
    + apply Hne.
    + intros H. unfold bucket_of in H.
      destruct (dict_get g key) eqn:E; [|congruence].
      apply dict_get_In in E. now apply In_keys in E.
Qed.

Lemma sample_endpoints_dicts :
  forall path methods, In (path, methods) sample_endpoints -> is_dict methods.
Proof.
  intros path methods H. cbn in H.
  repeat (destruct H as [H|H]; [injection H as <- <-; eexists; reflexivity|]).
  contradiction.
Qed.

Lemma group_by_method_buckets_witness :
  exists grouped,
    group_by_method sample_endpoints = Ok grouped /\
    bucket_of grouped "GET" = ["/users"] /\
    bucket_of grouped "POST" = ["/calls"].
Proof.
  destruct (group_by_method_buckets sample_endpoints sample_endpoints_dicts)
    as (grouped & Hg & _ & Hb).
  exists grouped. split; [exact Hg|].
  split; [exact (proj1 (Hb "GET"))|exact (proj1 (Hb "POST"))].
Defined.

(** ** The buckets of group_by_tag *)

Lemma key_eqb_sym (a b : value) : key_eqb a b = key_eqb b a.
Proof.
  destruct a as [|x|x|x|x|x], b as [|y|y|y|y|y]; cbn [key_eqb];
    try reflexivity;
    try apply Z.eqb_sym; try apply String.eqb_sym.
  now destruct x, y.
Qed.

Lemma key_eqb_trans (a b c : value) :
  key_eqb a b = true -> key_eqb b c = true -> key_eqb a c = true.
Proof.
  destruct a as [|x|x|x|x|x], b as [|y|y|y|y|y], c as [|z|z|z|z|z];
    cbn [key_eqb]; try discriminate; try reflexivity;
    rewrite ?Z.eqb_eq, ?String.eqb_eq, ?Bool.eqb_true_iff; intros; subst;
    try reflexivity; try discriminate; try congruence.
  - destruct x, z; cbn in *; congruence.
Qed.

Lemma key_eqb_congr (a b c : value) :
  key_eqb a b = true -> key_eqb a c = key_eqb b c.
Proof.
  intros Hab. destruct (key_eqb b c) eqn:Hbc.
  - now apply key_eqb_trans with b.
  - destruct (key_eqb a c) eqn:Hac; [|reflexivity].
    rewrite <- Hbc. symmetry. apply key_eqb_trans with a; [|exact Hac].
    now rewrite key_eqb_sym.
Qed.

Lemma bucket_get_append (grouped : buckets) (t tag : value) (record : tag_record) :
  bucket_get (bucket_append grouped t record) tag
  = if key_eqb t tag then bucket_get grouped tag ++ [record]
    else bucket_get grouped tag.
Proof.
  induction grouped as [|[k records] grouped IH]; cbn [bucket_append bucket_get].
  - destruct (key_eqb t tag); reflexivity.
  - destruct (key_eqb k t) eqn:Hkt; cbn [bucket_get].
    + rewrite <- (key_eqb_congr k t tag Hkt).
      destruct (key_eqb k tag); reflexivity.
    + destruct (key_eqb k tag) eqn:Hk; [|exact IH].
      destruct (key_eqb t tag) eqn:Ht; [|reflexivity].
      rewrite (key_eqb_sym t tag) in Ht.
      now rewrite (key_eqb_trans k tag t Hk Ht) in Hkt.
Qed.

Lemma records_of_tag_app (l l' : list (value * tag_record)) (tag : value) :
  records_of_tag (l ++ l') tag = records_of_tag l tag ++ records_of_tag l' tag.
Proof. unfold records_of_tag. now rewrite filter_app, map_app. Qed.

Lemma add_tags_records (path method : string) (details summary : value)
  (tags : list value) :
  py_getitem details "summary" = Ok summary ->
  forall grouped grouped',
    for_each (add_tag path method details) tags grouped = Ok grouped' ->
    forall tag,
      bucket_get grouped' tag
      = bucket_get grouped tag
        ++ records_of_tag
             (map (fun t => (t, mk_tag_record path (upper method) summary)) tags)
             tag.
Proof.
  intros Hs. induction tags as [|t tags IH]; intros grouped grouped';
    cbn [for_each].
  - intros [= <-] tag. cbn. now rewrite app_nil_r.
  - unfold add_tag at 1. rewrite Hs. destruct (hashable t); [|discriminate].
    cbn [bind]. intros H tag. rewrite (IH _ _ H tag), bucket_get_append.
    unfold records_of_tag. cbn [map filter fst].
    destruct (key_eqb t tag); cbn [map snd]; [|reflexivity].
    now rewrite <- app_assoc.
Qed.

Lemma add_method_tag_records (path : string) (entry : string * value)
  (grouped grouped' : buckets) :
  add_method_tags path grouped entry = Ok grouped' ->
  forall tag,
    bucket_get grouped' tag
    = bucket_get grouped tag ++ records_of_tag (method_tag_records path entry) tag.
Proof.
  destruct entry as [method details]. unfold add_method_tags, method_tag_records.
  cbn [fst snd].
  destruct (py_get details "tags" (VList [VStr "untagged"])) as [tags|e];
    [|discriminate].
  cbn [bind]. destruct (py_iter tags) as [l|e]; [|discriminate].
  cbn [bind]. destruct (py_getitem details "summary") as [summary|e] eqn:Hs.
  - now apply add_tags_records.
  - destruct l as [|t l]; cbn [for_each].
    + intros [= <-] tag. cbn. now rewrite app_nil_r.
    + unfold add_tag at 1. rewrite Hs. now destruct (hashable t).
Qed.

Lemma add_methods_tag_records (path : string) (methods : dict) :
  forall grouped grouped',
    for_each (add_method_tags path) methods grouped = Ok grouped' ->
    forall tag,
      bucket_get grouped' tag
      = bucket_get grouped tag
        ++ records_of_tag (flat_map (method_tag_records path) methods) tag.
Proof.
  induction methods as [|entry methods IH]; intros grouped grouped';
    cbn [for_each flat_map].
  - intros [= <-] tag. cbn. now rewrite app_nil_r.
  - destruct (add_method_tags path grouped entry) as [g1|e] eqn:E; [|discriminate].
    cbn [bind]. intros H tag.
    rewrite (IH _ _ H tag), (add_method_tag_records _ _ _ _ E tag).
    now rewrite records_of_tag_app, app_assoc.
Qed.

(** X2.  When [group_by_tag] returns, the bucket of a tag holds the
    records of exactly the occurrences of that tag in the tag lists, one
    record for each occurrence, in the order in which the paths, their
    methods and the tags of a method come in the map. *)
Theorem group_by_tag_buckets (endpoints : dict) (grouped : buckets) (tag : value) :
  group_by_tag endpoints = Ok grouped ->
  bucket_get grouped tag = records_of_tag (tag_records endpoints) tag.
Proof.
  unfold group_by_tag.
  assert (H : forall g g',
             for_each (fun grouped entry =>
                         methods <- py_items (snd entry) ;;
                         for_each (add_method_tags (fst entry)) methods grouped)
                      endpoints g = Ok g' ->
             bucket_get g' tag
             = bucket_get g tag ++ records_of_tag (tag_records endpoints) tag).
  { induction endpoints as [|[path methods] endpoints IH]; intros g g';
      cbn [for_each].
    - intros [= <-]. cbn. now rewrite app_nil_r.
    - cbn [fst snd]. destruct methods as [| | | | |items]; try discriminate.
      cbn [py_items bind].
      destruct (for_each (add_method_tags path) items g) as [g1|e] eqn:E;
        [|discriminate].
      cbn [bind]. intros H. rewrite (IH _ _ H).
      rewrite (add_methods_tag_records _ _ _ _ E tag).
      unfold tag_records. cbn [flat_map fst snd].
      now rewrite records_of_tag_app, app_assoc. }
  intros Hg. now rewrite (H _ _ Hg).
Qed.

Lemma group_by_tag_buckets_witness :
  bucket_get category_buckets (VStr "Users")
  = records_of_tag (tag_records category_endpoints) (VStr "Users").
Proof.
  apply (group_by_tag_buckets category_endpoints category_buckets (VStr "Users")).
  reflexivity.
Defined.

Lemma group_by_tag_total_witness :
  bucket_total category_buckets = endpoints_tag_count category_endpoints.
Proof.
  apply (group_by_tag_total category_endpoints category_buckets).
  reflexivity.
Defined.

(** ** What extract_endpoints can raise *)

Lemma for_each_raises {A S : Type} (P : S -> Prop) (Q : exn -> Prop)
  (step : S -> A -> result S) (l : list A) :
  (forall s x s', P s -> step s x = Ok s' -> P s') ->
  (forall s x e, P s -> step s x = Raise e -> Q e) ->
  forall s e, P s -> for_each step l s = Raise e -> Q e.
Proof.
  intros Hok Hraise. induction l as [|x l IH]; intros s e Hs; cbn [for_each].
  - discriminate.
  - destruct (step s x) as [s1|e1] eqn:E; cbn [bind].
    + apply IH. now apply Hok with s x.
    + intros [= <-]. now apply Hraise with s x.
Qed.

Lemma operation_record_raises (operation : value) (e : exn) :
  operation_record operation = Raise e -> e = AttributeError.
Proof.
  destruct operation; cbn; try discriminate; now intros [= <-].
Qed.

Lemma extract_method_has (path : string) (endpoints endpoints' : dict)
  (entry : string * value) :
  has_methods path endpoints ->
  extract_method path endpoints entry = Ok endpoints' ->
  has_methods path endpoints'.
Proof.
  destruct entry as [method operation]. rewrite extract_method_eq.
  intros [methods Hget]. destruct (is_http_method method); [|now intros [= <-]; exists methods].
  destruct (operation_record operation) as [record|e]; [|discriminate].
  cbn [bind]. unfold set_inner, py_getitem. rewrite Hget. cbn [bind].
  intros [= <-]. eexists. apply dict_get_set_same.
Qed.

Lemma extract_method_raises (path : string) (endpoints : dict)
  (entry : string * value) (e : exn) :
  has_methods path endpoints ->
  extract_method path endpoints entry = Raise e -> e = AttributeError.
Proof.
  destruct entry as [method operation]. rewrite extract_method_eq.
  intros [methods Hget]. destruct (is_http_method method); [|discriminate].
  destruct (operation_record operation) as [record|e'] eqn:E.
  - cbn [bind]. unfold set_inner, py_getitem. rewrite Hget. discriminate.
  - cbn [bind]. intros [= <-]. now apply operation_record_raises in E.
Qed.

(** X4.  Whatever the document, [extract_endpoints] returns a map or
    raises [AttributeError] (a value that is not an object where
    [spec], [paths], a path item or an operation is read): it raises no
    [KeyError] and no [TypeError]. *)
Theorem extract_endpoints_raises_attribute_error (spec : value) (e : exn) :
  extract_endpoints spec = Raise e -> e = AttributeError.
Proof.
  unfold extract_endpoints.
  destruct spec as [| | | | |d]; cbn [py_get bind]; try now intros [= <-].
  destruct (match dict_get d "paths" with Some v => v | None => VDict [] end)
    as [| | | | |paths]; cbn [py_items bind]; try now intros [= <-].
  apply (for_each_raises (fun _ => True) (fun e => e = AttributeError));
    [trivial| |trivial].
  intros endpoints [path path_data] e' _. unfold extract_path.
  destruct path_data as [| | | | |items]; cbn [py_items bind];
    try now intros [= <-].
  apply (for_each_raises (has_methods path) (fun e => e = AttributeError)).
  - intros s x s'. apply extract_method_has.
  - intros s x e''. apply extract_method_raises.
  - eexists. apply dict_get_set_same.
Qed.

Lemma extract_endpoints_raises_attribute_error_witness :
  exists e,
    extract_endpoints
      (VDict [("paths", VDict [("/a", VDict [("get", VStr "text")])])])
    = Raise e /\ e = AttributeError.
Proof.
  exists AttributeError. split; [reflexivity|].
  apply (extract_endpoints_raises_attribute_error
           (VDict [("paths", VDict [("/a", VDict [("get", VStr "text")])])])
           AttributeError).
  reflexivity.
Defined.

(** ** Paths with the same segments *)

Lemma group_by_path_fold (endpoints : dict) :
  forall tree,
    trie tree -> no_reserved_segment endpoints ->
    exists tree',
      for_each (fun grouped entry =>
                  insert_path (path_parts (fst entry)) (snd entry) grouped)
               endpoints tree = Ok tree' /\
      trie tree' /\
      forall segments, ~ In reserved segments ->
        tree_methods tree' segments
        = fold_left (fun found entry =>
                       if list_eq_dec string_dec (path_parts (fst entry)) segments
                       then Some (snd entry) else found)
                    endpoints (tree_methods tree segments).
Proof.
  induction endpoints as [|[path methods] endpoints IH]; intros tree Ht Hres.
  - exists tree. split; [reflexivity|]. split; [exact Ht|]. reflexivity.
  - cbn [for_each fst snd fold_left].
    assert (Hparts : ~ In reserved (path_parts path)) by (apply Hres; now left).
    destruct (insert_path_spec methods (path_parts path) tree Ht Hparts)
      as (tree1 & Hins & Ht1 & Hget & Hother).
    rewrite Hins. cbn [bind].
    destruct (IH tree1 Ht1) as (tree' & Hfor & Ht' & Hlook).
    { intros q HI. apply Hres. now right. }
    exists tree'. split; [exact Hfor|]. split; [exact Ht'|].
    intros segments Hs. rewrite (Hlook segments Hs). f_equal.
    destruct (list_eq_dec string_dec (path_parts path) segments) as [<-|Hne].
    + exact Hget.
    + apply Hother; [exact Hs|congruence].
Qed.

(** X5.  When no path has a segment that is the reserved key,
    [group_by_path] raises nothing, and the node a list of segments leads
    to holds the method map of the last path of the map with these
    segments: of paths that differ only in leading or trailing slashes
    the last one replaces the others. *)
Theorem group_by_path_last_wins (endpoints : dict) :
  no_reserved_segment endpoints ->
  exists tree,
    group_by_path endpoints = Ok tree /\
    forall segments, ~ In reserved segments ->
      tree_methods tree segments = last_methods endpoints segments.
Proof.
  intros Hres.
  destruct (group_by_path_fold endpoints (VDict []) trie_empty Hres)
    as (tree & Hfor & _ & Hlook).
  exists tree. split; [exact Hfor|].
  intros segments Hs. rewrite (Hlook segments Hs).
  now rewrite tree_methods_empty.
Qed.

Lemma group_by_path_last_wins_witness :
  exists tree,
    group_by_path [("/a", VDict [("get", VDict [])]);
                   ("/a/", VDict [("post", VDict [])])] = Ok tree /\
    tree_methods tree ["a"] = Some (VDict [("post", VDict [])]).
Proof.
  destruct (group_by_path_last_wins
              [("/a", VDict [("get", VDict [])]);
               ("/a/", VDict [("post", VDict [])])]) as (tree & Hg & Hl).
  - intros path H. cbn in H.
    repeat (destruct H as [H|H]; [subst path; cbn; intuition discriminate|]).
    contradiction.
  - exists tree. split; [exact Hg|].
    rewrite Hl; [reflexivity|]. cbn. intuition discriminate.
Defined.

(** ** print_endpoint_group_description *)

Lemma select_tags_filter (lib : pylib) (test : string -> bool)
  (tags : list value) :
  Forall (fun tag => is_text tag "name") tags ->
  select_tags lib test tags
  = Ok (filter (fun tag => test (group_key lib tag)) tags).
Proof.
  unfold select_tags.
  assert (H : forall acc,
            Forall (fun tag => is_text tag "name") tags ->
            for_each (fun acc tag =>
                        name <- lower_name lib tag ;;
                        Ok (if test name then acc ++ [tag] else acc)) tags acc
            = Ok (acc ++ filter (fun tag => test (group_key lib tag)) tags)).
  { induction tags as [|tag tags IH]; intros acc Hall; cbn [for_each filter].
    - now rewrite app_nil_r.
    - inversion Hall as [|? ? Htag Hrest]; subst.
      unfold lower_name at 1. rewrite Htag. cbn [bind].
      fold (group_key lib tag). rewrite IH by exact Hrest.
      destruct (test (group_key lib tag)); [|reflexivity].
      now rewrite <- app_assoc. }
  intros Hall. now rewrite H.
Qed.

Lemma filter_none {A : Type} (p : A -> bool) (l : list A) :
  (forall y, In y l -> p y = false) -> filter p l = [].
Proof.
  induction l as [|y l IH]; intros H; [reflexivity|].
  cbn [filter]. rewrite (H y) by now left.
  apply IH. intros z Hz. apply H. now right.
Qed.

Lemma filter_unique_key {A : Type} (f : A -> string) (l : list A) (x : A) :
  NoDup (map f l) -> In x l ->
  filter (fun y => String.eqb (f x) (f y)) l = [x].
Proof.
  induction l as [|y l IH]; cbn [map filter]; [intros _ []|].
  intros Hnd HI. inversion Hnd as [|? ? Hnot Hnd']; subst.
  destruct HI as [->|HI].
  - rewrite String.eqb_refl. f_equal. apply filter_none.
    intros z Hz. apply String.eqb_neq. intros E. apply Hnot.
    rewrite E. now apply in_map.
  - destruct (String.eqb_spec (f x) (f y)) as [E|_].
    + exfalso. apply Hnot. rewrite <- E. now apply in_map.
    + now apply IH.
Qed.

Lemma for_io_print_group_name (lib : pylib) (tags : list value) (w : world) :
  Forall (fun tag => is_text tag "name") tags ->
  for_io (print_group_name lib) tags w
  = (Ok tt,
     add_stdout w (map (fun tag => ("- " ++ text_field tag "name")%string) tags)).
Proof.
  intros Hall. revert w. induction Hall as [|tag tags Htag Hrest IH]; intros w.
  - cbn [for_io map]. unfold ret. now rewrite add_stdout_nil.
  - cbn [for_io map]. unfold io_bind at 1. unfold print_group_name at 1.
    unfold io_bind, lift. rewrite Htag. cbn [fmt]. rewrite print_add, IH.
    now rewrite add_stdout_app.
Qed.

(** X6.  In a document whose tags have names that differ beyond letter
    case, the names [print_endpoint_groups] lists are those of the tags,
    in their order, and each of them, written in any letter case, selects
    its own group in [print_endpoint_group_description], even when it is
    part of the name of another group: the heading and the description
    are printed, or, for a tag without a description, the heading and
    then a [KeyError] is raised. *)
Theorem listed_group_is_described (lib : pylib) (spec : value)
  (tags : list value) (w : world) :
  py_get spec "tags" (VList []) = Ok (VList tags) ->
  tags <> [] ->
  Forall (fun tag => is_text tag "name") tags ->
  NoDup (map (group_key lib) tags) ->
  print_endpoint_groups lib spec w
  = (Ok tt,
     add_stdout w
       ((nl ++ "Available Endpoint Groups:")%string
        :: map (fun tag => ("- " ++ text_field tag "name")%string) tags)) /\
  forall tag group_name,
    In tag tags ->
    str_lower lib group_name = group_key lib tag ->
    print_endpoint_group_description lib spec group_name w
    = match py_getitem tag "description" with
      | Ok description =>
          (Ok tt, add_stdout w [group_heading tag; fmt lib description])
      | Raise e => (Raise e, add_stdout w [group_heading tag])
      end.
Proof.
  intros Hget Hne Hall Hnd. split.
  - unfold print_endpoint_groups. unfold io_bind at 1. unfold lift at 1.
    rewrite Hget. destruct tags as [|tag tags]; [congruence|].
    cbn [truthy negb]. unfold io_bind at 1. rewrite print_add.
    unfold io_bind at 1. unfold lift at 1. cbn [py_iter].
    rewrite for_io_print_group_name by exact Hall.
    now rewrite add_stdout_app.
  - intros tag group_name HI Hname.
    unfold print_endpoint_group_description.
    unfold io_bind at 1. unfold lift at 1. rewrite Hget.
    unfold io_bind at 1. unfold lift at 1. cbn [py_iter].
    unfold io_bind at 1. unfold lift at 1.
    rewrite select_tags_filter by exact Hall.
    rewrite Hname, (filter_unique_key (group_key lib) tags tag Hnd HI).
    unfold io_bind at 1. unfold ret at 1.
    unfold io_bind at 1. unfold lift at 1.
    assert (Htag : is_text tag "name").
    { rewrite Forall_forall in Hall. now apply Hall. }
    rewrite Htag. unfold io_bind at 1. rewrite print_add. cbn [fmt].
    unfold io_bind, lift.
    destruct (py_getitem tag "description") as [description|e].
    + rewrite print_add. now rewrite add_stdout_app.
    + reflexivity.
Qed.

Lemma listed_group_is_described_witness :
  print_endpoint_group_description literal_lib groups_spec "USERS" empty_world
  = (Ok tt,
     mk_world [(nl ++ "=== Users API Endpoints ===" ++ nl)%string;
               "<p>People</p>"] [] []) /\
  print_endpoint_group_description literal_lib groups_spec "users admin"
    empty_world
  = (Raise KeyError,
     mk_world [(nl ++ "=== Users Admin API Endpoints ===" ++ nl)%string] [] []).
Proof.
  assert (H : forall tag group_name,
            In tag [VDict [("name", VStr "Users");
                           ("description", VStr "<p>People</p>")];
                    VDict [("name", VStr "Users Admin")]] ->
            str_lower literal_lib group_name = group_key literal_lib tag ->
            print_endpoint_group_description literal_lib groups_spec group_name
              empty_world
            = match py_getitem tag "description" with
              | Ok description =>
                  (Ok tt, add_stdout empty_world
                            [group_heading tag; fmt literal_lib description])
              | Raise e => (Raise e, add_stdout empty_world [group_heading tag])
              end).
  { apply (listed_group_is_described literal_lib groups_spec).
    - reflexivity.
    - discriminate.
    - repeat constructor.
    - cbn. nodup_keys. }
  split.
  - apply (H (VDict [("name", VStr "Users");
                     ("description", VStr "<p>People</p>")]) "USERS").
    + now left.
    + reflexivity.
  - apply (H (VDict [("name", VStr "Users Admin")]) "users admin").
    + right. now left.
    + reflexivity.
Defined.

(** ** A tag whose name is part of another *)

Lemma string_app_assoc (a b c : string) :
  ((a ++ b) ++ c = a ++ (b ++ c))%string.
Proof. induction a as [|x a IH]; cbn; [reflexivity|now rewrite IH]. Qed.

Lemma prefix_app (needle haystack : string) :
  String.prefix needle haystack = true <->
  exists post, haystack = (needle ++ post)%string.
Proof.
  revert haystack. induction needle as [|a needle IH]; intros haystack.
  - split; [intros _; now exists haystack|]. intros _. now destruct haystack.
  - destruct haystack as [|b haystack]; cbn [String.prefix].
    + split; [discriminate|]. intros [post H]. discriminate.
    + destruct (ascii_dec a b) as [->|Hne].
      * rewrite IH. split; intros [post H]; exists post; cbn in *; congruence.
      * split; [discriminate|]. intros [post H]. cbn in H. congruence.
Qed.

Lemma contains_app (needle haystack : string) :
  contains needle haystack = true <->
  exists pre post, haystack = (pre ++ needle ++ post)%string.
Proof.
  induction haystack as [|b haystack IH]; cbn [contains].
  - rewrite orb_false_r, prefix_app. split.
    + intros [post H]. now exists EmptyString, post.
    + intros (pre & post & H). destruct pre as [|x pre]; [|discriminate].
      now exists post.
  - rewrite orb_true_iff, prefix_app, IH. split.
    + intros [[post H]|(pre & post & H)].
      * now exists EmptyString, post.
      * exists (String b pre), post. cbn. now rewrite H.
    + intros (pre & post & H). destruct pre as [|x pre].
      * left. now exists post.
      * right. exists pre, post. cbn in H. congruence.
Qed.

Lemma contains_trans (a b c : string) :
  contains a b = true -> contains b c = true -> contains a c = true.
Proof.
  rewrite !contains_app. intros (p1 & q1 & ->) (p2 & q2 & ->).
  exists (p2 ++ p1)%string, (q1 ++ q2)%string.
  now rewrite !string_app_assoc.
Qed.

(** X7.  A tag whose name, in lower case, is part of the name of another
    tag of the grouping cannot be shown by [show_category_details]:
    every query that matches it matches the other tag too, and the answer
    is the list of candidates. *)
Theorem shadowed_category_is_ambiguous (lib : pylib) (spec : value)
  (endpoints : dict) (grouped : buckets) (matches : list value)
  (short long category : string) (w : world) :
  group_by_tag endpoints = Ok grouped ->
  matching_tags lib category grouped = Ok matches ->
  In (VStr short) (map fst grouped) ->
  In (VStr long) (map fst grouped) ->
  short <> long ->
  contains (str_lower lib short) (str_lower lib long) = true ->
  contains (str_lower lib category) (str_lower lib short) = true ->
  In (VStr short) matches /\ In (VStr long) matches /\
  show_category_details lib spec endpoints category w
  = (Ok tt,
     add_stdout w
       (("Multiple categories match '" ++ category ++ "':")%string
        :: map (tag_line lib) matches)).
Proof.
  intros Hg Hm Hshort Hlong Hne Hpart Hquery.
  pose proof (matching_tags_filter _ _ _ _ Hm) as [_ Hf].
  assert (His : In (VStr short) matches).
  { rewrite Hf. apply filter_In. now split. }
  assert (Hil : In (VStr long) matches).
  { rewrite Hf. apply filter_In. split; [exact Hlong|].
    cbn [tag_text]. now apply contains_trans with (str_lower lib short). }
  split; [exact His|]. split; [exact Hil|].
  unfold show_category_details. unfold io_bind, lift. rewrite Hg, Hm.
  destruct matches as [|tag [|tag' rest]].
  - destruct His.
  - destruct His as [->|[]]. destruct Hil as [E|[]]. congruence.
  - rewrite print_add, for_io_print_tag. now rewrite add_stdout_app.
Qed.

Lemma shadowed_category_is_ambiguous_witness :
  show_category_details literal_lib (VDict []) shadow_endpoints "User"
    empty_world
  = (Ok tt,
     mk_world ["Multiple categories match 'User':"; "- User"; "- Users"] [] []).
Proof.
  apply (shadowed_category_is_ambiguous literal_lib (VDict []) shadow_endpoints
           shadow_buckets [VStr "User"; VStr "Users"] "User" "Users" "User"
           empty_world); try reflexivity.
  - now left.
  - right. now left.
  - discriminate.
Defined.

(** ** The tree listing of one path *)

Lemma insert_path_empty (methods : value) (parts : list string) :
  insert_path parts methods (VDict []) = Ok (chain parts methods).
Proof.
  induction parts as [|part rest IH]; [reflexivity|].
  cbn [insert_path py_in dict_mem dict_get bind py_setitem dict_set py_getitem].
  rewrite String.eqb_refl. cbn [bind]. now rewrite IH.
Qed.

Lemma for_io_print_tree_method (lib : pylib) (indent : nat) (methods : dict) :
  (forall method details, In (method, details) methods ->
     is_text details "summary") ->
  forall w,
    for_io (print_tree_method lib indent) methods w
    = (Ok tt, add_stdout w (map (tree_method_line indent) methods)).
Proof.
  induction methods as [|[m d] methods IH]; intros Htext w.
  - cbn [for_io map]. unfold ret. now rewrite add_stdout_nil.
  - cbn [for_io map]. unfold io_bind at 1.
    assert (Hs : is_text d "summary") by (apply (Htext m d); now left).
    unfold print_tree_method at 1. unfold io_bind, lift. rewrite Hs.
    cbn [fmt]. rewrite print_add, IH.
    + now rewrite add_stdout_app.
    + intros m' d' HI. apply (Htext m'). now right.
Qed.

Lemma print_chain (lib : pylib) (methods : dict) (parts : list string) :
  ~ In reserved parts ->
  (forall method details, In (method, details) methods ->
     is_text details "summary") ->
  forall indent w,
    print_grouped_endpoints lib (chain parts (VDict methods)) indent w
    = (Ok tt,
       add_stdout w
         (segment_lines indent parts
          ++ map (tree_method_line (indent + length parts)) methods)).
Proof.
  intros Hres Htext. induction parts as [|part rest IH]; intros indent w.
  - cbn [chain print_grouped_endpoints map fst snd]. rewrite String.eqb_refl.
    cbn [sorted_by fold_left insert_by for_io snd].
    unfold io_bind, lift. cbn [py_items]. rewrite for_io_print_tree_method by exact Htext.
    cbn [segment_lines app length]. now rewrite Nat.add_0_r.
  - assert (Hpart : part <> reserved) by (intros ->; apply Hres; now left).
    cbn [chain print_grouped_endpoints map fst snd].
    destruct (String.eqb_spec part reserved) as [E|_]; [contradiction|].
    cbn [sorted_by fold_left insert_by for_io snd].
    unfold io_bind. rewrite print_add. rewrite IH.
    + rewrite add_stdout_app. cbn [segment_lines app length].
      now rewrite Nat.add_succ_r.
    + intros H. apply Hres. now right.
Qed.

(** X8.  The tree listing of a map with one path, whose segments are not
    the reserved key: a line for each segment, each one level deeper,
    then a line for each method, one level below the last segment. *)
Theorem tree_listing_of_one_path (lib : pylib) (path : string) (methods : dict)
  (w : world) :
  ~ In reserved (path_parts path) ->
  (forall method details, In (method, details) methods ->
     is_text details "summary") ->
  exists tree,
    group_by_path [(path, VDict methods)] = Ok tree /\
    print_grouped_endpoints lib tree 0 w
    = (Ok tt,
       add_stdout w
         (segment_lines 0 (path_parts path)
          ++ map (tree_method_line (length (path_parts path))) methods)).
Proof.
  intros Hres Htext. exists (chain (path_parts path) (VDict methods)). split.
  - unfold group_by_path. cbn [for_each fst snd].
    rewrite insert_path_empty. reflexivity.
  - now rewrite print_chain.
Qed.

Lemma tree_listing_of_one_path_witness :
  exists tree,
    group_by_path
      [("/users/{id}", VDict [("get", normalized [("summary", VStr "Get user")])])]
    = Ok tree /\
    print_grouped_endpoints literal_lib tree 0 empty_world
    = (Ok tt, mk_world ["users/"; "  {id}/"; "    GET: Get user"] [] []).
Proof.
  apply (tree_listing_of_one_path literal_lib "/users/{id}"
           [("get", normalized [("summary", VStr "Get user")])] empty_world).
  - cbn. intuition discriminate.
  - intros method details [E|[]]. injection E as <- <-. reflexivity.
Defined.

(** ** The method filter of the simple listing *)

Lemma for_io_lines_in {A : Type} (body : A -> io unit) (lines : A -> list string)
  (l : list A) :
  (forall x w, In x l -> body x w = (Ok tt, add_stdout w (lines x))) ->
  forall w, for_io body l w = (Ok tt, add_stdout w (flat_map lines l)).
Proof.
  induction l as [|x l IH]; intros Hbody w; cbn [for_io flat_map].
  - unfold ret. now rewrite add_stdout_nil.
  - unfold io_bind. rewrite Hbody by now left.
    rewrite IH by (intros y w' Hy; apply Hbody; now right).
    now rewrite add_stdout_app.
Qed.

(** X9.  With a method filter, [list_endpoints] of parse_api_spec.py
    prints a line for a path exactly when its method map has the filter,
    put in lower case, as a key: the letter case of the filter does not
    matter, that of the key in the map does. *)
Theorem simple_list_endpoints_filter (lib : pylib) (endpoints : dict)
  (method : string) (w : world) :
  method <> EmptyString ->
  (forall path methods, In (path, methods) endpoints ->
     is_dict methods /\
     forall details, dict_get (items_of methods) (lower method) = Some details ->
       is_text details "summary") ->
  simple_list_endpoints lib endpoints (Some method) w
  = (Ok tt,
     add_stdout w
       ("Available Endpoints:" :: flat_map (filtered_line method) endpoints)).
Proof.
  intros Hm Hshape. unfold simple_list_endpoints.
  unfold io_bind at 1. rewrite print_add.
  destruct (String.eqb_spec method "") as [E|_]; [contradiction|].
  rewrite (for_io_lines_in _ (filtered_line method)).
  - now rewrite add_stdout_app.
  - intros [path methods] w' HI.
    destruct (Hshape path methods HI) as [[items ->] Htext].
    unfold list_filtered, filtered_line. cbn [fst snd items_of] in *.
    unfold io_bind at 1. unfold lift at 1. cbn [py_in]. unfold dict_mem.
    destruct (dict_get items (lower method)) as [details|] eqn:E.
    + unfold io_bind at 1. unfold lift at 1. cbn [py_getitem]. rewrite E.
      unfold io_bind, lift. rewrite (Htext details eq_refl).
      cbn [fmt]. now rewrite print_add.
    + unfold ret. now rewrite add_stdout_nil.
Qed.

Lemma simple_list_endpoints_filter_witness :
  simple_list_endpoints literal_lib sample_endpoints (Some "GET") empty_world
  = (Ok tt,
     mk_world ["Available Endpoints:"; "/users [GET]: List users"] [] []) /\
  simple_list_endpoints literal_lib sample_endpoints (Some "post") empty_world
  = (Ok tt, mk_world ["Available Endpoints:"] [] []).
Proof.
  assert (H : forall method path methods,
            In (path, methods) sample_endpoints ->
            is_dict methods /\
            forall details,
              dict_get (items_of methods) (lower method) = Some details ->
              is_text details "summary").
  { intros method path methods HI. split; [now apply (sample_endpoints_dicts path)|].
    intros details Hget. apply dict_get_In in Hget.
    destruct (sample_text_endpoints path methods HI) as (items & -> & Htext).
    now apply (Htext (lower method) details). }
  split.
  - apply (simple_list_endpoints_filter literal_lib sample_endpoints "GET"
             empty_world); [discriminate|apply H].
  - apply (simple_list_endpoints_filter literal_lib sample_endpoints "post"
             empty_world); [discriminate|apply H].
Defined.

(** ** A search without a match *)

Lemma search_endpoint_none (lib : pylib) (pattern : string -> bool)
  (path : string) (items : dict) (w : world) :
  pattern path = false ->
  Forall (fun m => no_text_match pattern (snd m)) items ->
  search_endpoint lib pattern (path, VDict items) w
  = (Ok tt, add_probes w (endpoint_probes pattern (path, VDict items))).
Proof.
  intros Hpath Hmiss. unfold search_endpoint.
  unfold io_bind at 1. cbn [search]. rewrite Hpath.
  unfold io_bind at 1. unfold ret at 1.
  unfold io_bind at 1. unfold lift, py_items.
  rewrite search_text_none by exact Hmiss.
  change (mk_world (stdout w) (stderr w) (probes w ++ [path]))
    with (add_probes w [path]).
  now rewrite add_probes_app.
Qed.

(** X10.  When the pattern matches no path, no summary and no
    description of the map, [search_endpoints] prints the heading and
    nothing else, after applying the pattern to every path, summary and
    description. *)
Theorem search_endpoints_without_match (lib : pylib) (endpoints : dict)
  (pat : string) (pattern : string -> bool) (w : world) :
  re_compile lib pat = Some pattern ->
  (forall path methods, In (path, methods) endpoints ->
     pattern path = false /\ is_dict methods /\
     Forall (fun m => no_text_match pattern (snd m)) (items_of methods)) ->
  search_endpoints lib endpoints pat w
  = (Ok tt,
     mk_world (stdout w ++ [(nl ++ "Matching Endpoints:")%string]) (stderr w)
       (probes w ++ flat_map (endpoint_probes pattern) endpoints)).
Proof.
  intros Hc Hmiss. unfold search_endpoints. rewrite Hc.
  unfold io_bind. rewrite print_add.
  assert (H : forall w',
            for_io (search_endpoint lib pattern) endpoints w'
            = (Ok tt, add_probes w' (flat_map (endpoint_probes pattern) endpoints))).
  { induction endpoints as [|[path methods] endpoints IH]; intros w'.
    - cbn [for_io flat_map]. unfold ret. now rewrite add_probes_nil.
    - destruct (Hmiss path methods (or_introl eq_refl)) as (Hp & [items ->] & Hm).
      cbn [for_io flat_map]. unfold io_bind.
      rewrite search_endpoint_none by assumption.
      rewrite IH by (intros p m HI; apply Hmiss; now right).
      now rewrite add_probes_app. }
  now rewrite H.
Qed.

Lemma search_endpoints_without_match_witness :
  search_endpoints literal_lib sample_endpoints "zebra" empty_world
  = (Ok tt,
     mk_world [(nl ++ "Matching Endpoints:")%string] []
       ["/users"; "List users"; ""; "/calls"; ""; ""; "/health"]).
Proof.
  apply (search_endpoints_without_match literal_lib sample_endpoints "zebra"
           (fun s => contains "zebra" (lower s)) empty_world).
  - reflexivity.
  - intros path methods H. cbn in H.
    repeat (destruct H as [H|H];
            [injection H as <- <-; split; [reflexivity|];
             split; [eexists; reflexivity|];
             repeat constructor|]).
    contradiction.
Defined.

(** ** show_endpoint_details on well-formed records *)

Lemma show_parameter_lines (lib : pylib) (param : value) (w : world) :
  is_dict param ->
  show_parameter lib param w = (Ok tt, add_stdout w (parameter_lines lib param)).
Proof.
  intros [p ->]. unfold show_parameter, parameter_lines, io_bind, lift.
  cbn [py_get items_of]. fold (default_get p "name" VNull).
  fold (default_get p "in" VNull). rewrite print_add.
  fold (default_get p "description" (VStr "")). rewrite print_add.
  fold (default_get p "required" (VBool false)). rewrite print_add.
  now rewrite !add_stdout_app.
Qed.

Lemma show_response_lines (lib : pylib) (entry : string * value) (w : world) :
  is_dict (snd entry) ->
  show_response lib entry w = (Ok tt, add_stdout w (response_lines lib entry)).
Proof.
  destruct entry as [status response]. cbn [snd]. intros [r ->].
  unfold show_response, response_lines, io_bind, lift.
  cbn [py_get items_of fst snd]. fold (default_get r "description" (VStr "")).
  now rewrite print_add.
Qed.

Lemma prints_print (line : string) : prints (print line) [line].
Proof. intros w. apply print_add. Qed.

Lemma prints_ret : prints (ret tt) [].
Proof. intros w. unfold ret. now rewrite add_stdout_nil. Qed.

Lemma prints_seq (m k : io unit) (l1 l2 : list string) :
  prints m l1 -> prints k l2 -> prints (m ;;; k) (l1 ++ l2).
Proof.
  intros Hm Hk w. unfold io_bind. now rewrite Hm, Hk, add_stdout_app.
Qed.

Lemma prints_lift {A : Type} (r : result A) (a : A) (k : A -> io unit)
  (l : list string) :
  r = Ok a -> prints (k a) l -> prints (x <~ lift r ;; k x) l.
Proof. intros -> Hk w. unfold io_bind, lift. apply Hk. Qed.

Lemma prints_if (b : bool) (m1 m2 : io unit) (l1 l2 : list string) :
  (b = true -> prints m1 l1) -> (b = false -> prints m2 l2) ->
  prints (if b then m1 else m2) (if b then l1 else l2).
Proof. destruct b; intros H1 H2; [now apply H1|now apply H2]. Qed.

Lemma prints_for_io {A : Type} (body : A -> io unit) (lines : A -> list string)
  (l : list A) :
  (forall x, In x l -> prints (body x) (lines x)) ->
  prints (for_io body l) (flat_map lines l).
Proof.
  intros H w. apply for_io_lines_in. intros x w' Hx. now apply H.
Qed.

Lemma show_method_lines (lib : pylib) (method : string) (details : value) :
  detail_record details ->
  prints (show_method lib (method, details)) (method_lines lib (method, details)).
Proof.
  intros (Hk & Htags & Hparams & Hresp).
  unfold show_method, method_lines. cbn [fst snd].
  apply (prints_seq _ _ [_]); [apply prints_print|].
  apply prints_lift with (field details "summary"); [apply Hk; cbn; tauto|].
  apply (prints_seq _ _ [_]); [apply prints_print|].
  apply prints_lift with (field details "description"); [apply Hk; cbn; tauto|].
  apply (prints_seq _ _ [_]); [apply prints_print|].
  apply prints_lift with (field details "tags"); [apply Hk; cbn; tauto|].
  apply prints_seq.
  { apply prints_if; [|intros _; apply prints_ret].
    intros Ht. apply prints_lift with (joined (field details "tags"));
      [now apply Htags|apply prints_print]. }
  apply prints_lift with (field details "parameters"); [apply Hk; cbn; tauto|].
  apply prints_seq.
  { apply prints_if; [|intros _; apply prints_ret].
    intros Ht. destruct (Hparams Ht) as [Hiter Hdicts].
    apply (prints_seq _ _ [_]); [apply prints_print|].
    apply prints_lift with (elements (field details "parameters"));
      [exact Hiter|].
    apply prints_for_io. intros param HI w. apply show_parameter_lines.
    rewrite Forall_forall in Hdicts. now apply Hdicts. }
  apply prints_lift with (field details "requestBody"); [apply Hk; cbn; tauto|].
  apply prints_seq.
  { apply prints_if; [|intros _; apply prints_ret].
    intros _. apply (prints_seq _ _ [_] [_]); apply prints_print. }
  apply prints_lift with (field details "responses"); [apply Hk; cbn; tauto|].
  apply prints_if; [|intros _; apply prints_ret].
  intros Ht. destruct (Hresp Ht) as [[r Hr] Hdicts].
  apply (prints_seq _ _ [_]); [apply prints_print|].
  apply prints_lift with (items_of (field details "responses"));
    [rewrite Hr; reflexivity|].
  apply prints_for_io. intros entry HI w. apply show_response_lines.
  rewrite Forall_forall in Hdicts. now apply Hdicts.
Qed.

(** X11.  For a path of the map whose method records are well formed,
    [show_endpoint_details] raises nothing and writes nothing to the
    error stream; it prints the heading and then, for each method in the
    order of the map, the method, summary and description lines and a
    section for each of tags, parameters, request body and responses
    that is not empty. *)
Theorem show_endpoint_details_lines (lib : pylib) (endpoints : dict)
  (path : string) (methods : dict) (w : world) :
  dict_get endpoints path = Some (VDict methods) ->
  (forall method details, In (method, details) methods -> detail_record details) ->
  show_endpoint_details lib endpoints path w
  = (Ok tt,
     add_stdout w
       ((nl ++ "Endpoint: " ++ path)%string
        :: flat_map (method_lines lib) methods)).
Proof.
  intros Hget Hrec. unfold show_endpoint_details, dict_mem. rewrite Hget.
  cbn [negb].
  apply (prints_seq _ _ [_]); [apply prints_print|].
  apply prints_lift with methods.
  - unfold py_getitem. rewrite Hget. reflexivity.
  - apply prints_for_io. intros [method details] HI.
    apply show_method_lines. now apply (Hrec method).
Qed.

Lemma normalized_empty_detail_record : detail_record (normalized []).
Proof.
  split; [|split; [|split]]; try discriminate.
  intros k H. cbn in H.
  repeat (destruct H as [<-|H]; [reflexivity|]). contradiction.
Qed.

Lemma show_endpoint_details_lines_witness :
  show_endpoint_details literal_lib sample_endpoints "/calls" empty_world
  = (Ok tt,
     mk_world [(nl ++ "Endpoint: /calls")%string; (nl ++ "Method: POST")%string;
               "Summary: "; "Description: "] [] []).
Proof.
  apply (show_endpoint_details_lines literal_lib sample_endpoints "/calls"
           [("POST", normalized [])] empty_world).
  - reflexivity.
  - intros method details [E|[]]. injection E as <- <-.
    exact normalized_empty_detail_record.
Defined.

(** ** The listing by method under a filter *)

Lemma flat_map_singleton {A B : Type} (f : A -> B) (l : list A) :
  flat_map (fun x => [f x]) l = map f l.
Proof.
  induction l as [|x l IH]; [reflexivity|]. cbn [flat_map map app].
  now rewrite IH.
Qed.

Lemma flat_map_other_keys {V : Type} (g : string * V -> list string)
  (key : string) (l : list (string * V)) :
  ~ In key (keys l) ->
  flat_map (fun e => if String.eqb key (fst e) then g e else []) l = [].
Proof.
  induction l as [|[k v] l IH]; intros H; [reflexivity|].
  cbn [flat_map fst]. destruct (String.eqb_spec key k) as [->|_].
  - exfalso. apply H. now left.
  - apply IH. intros HI. apply H. now right.
Qed.

Lemma flat_map_one_key {V : Type} (g : string * V -> list string)
  (key : string) (l : list (string * V)) :
  NoDup (keys l) ->
  flat_map (fun e => if String.eqb key (fst e) then g e else []) l
  = match dict_get l key with
    | Some v => g (key, v)
    | None => []
    end.
Proof.
  induction l as [|[k v] l IH]; intros Hnd; [reflexivity|].
  inversion Hnd as [|? ? Hnot Hnd']; subst.
  cbn [flat_map fst dict_get]. rewrite (String.eqb_sym k key).
  destruct (String.eqb_spec key k) as [->|_].
  - rewrite flat_map_other_keys by exact Hnot. now rewrite app_nil_r.
  - now apply IH.
Qed.

Lemma dict_get_perm {V : Type} (l l' : list (string * V)) (key : string) :
  NoDup (keys l) -> Permutation l l' -> dict_get l' key = dict_get l key.
Proof.
  intros Hnd Hp.
  assert (Hnd' : NoDup (keys l')).
  { apply (Permutation_NoDup (Permutation_map fst Hp) Hnd). }
  destruct (dict_get l key) as [v|] eqn:E.
  - apply In_dict_get; [exact Hnd'|].
    apply (Permutation_in _ Hp). now apply dict_get_In.
  - apply dict_get_None. apply dict_get_None in E. intros HI. apply E.
    apply (Permutation_in _ (Permutation_sym (Permutation_map fst Hp))). exact HI.
Qed.

(** X12.  The listing by method under a method filter shows one section
    at most, that of the filter put in upper case by [str.upper]: its
    heading and, sorted, the paths that have a method whose name in upper
    case is the filter in upper case; it shows no section when no path
    has such a method. *)
Theorem list_by_method_filter (lib : pylib) (endpoints : dict)
  (method : string) (w : world) :
  method <> EmptyString ->
  (forall path methods, In (path, methods) endpoints -> is_dict methods) ->
  list_by_method lib endpoints (Some method) w
  = (Ok tt,
     add_stdout w
       ((nl ++ "Endpoints by Method:")%string
        :: match paths_with_method endpoints (str_upper lib method) with
           | [] => []
           | paths => bucket_lines (str_upper lib method) paths
           end)).
Proof.
  intros Hm Hd.
  destruct (group_by_method_loop endpoints Hd []) as (grouped & Hg & Hnd & Hne & Hb);
    [constructor|intros key []|].
  unfold list_by_method, group_by_method. unfold io_bind at 1. unfold lift at 1.
  rewrite Hg.
  unfold io_bind at 1. rewrite print_add.
  destruct (sorted_by_spec (@fst string (list string)) grouped) as [Hperm _].
  rewrite (for_io_lines _
             (fun e => if String.eqb (str_upper lib method) (fst e)
                       then bucket_lines (fst e) (snd e) else [])).
  - rewrite add_stdout_app. cbn [app]. do 3 f_equal.
    rewrite flat_map_one_key
      by apply (Permutation_NoDup (Permutation_map fst Hperm) Hnd).
    rewrite (dict_get_perm grouped _ (str_upper lib method) Hnd Hperm).
    pose proof (Hb (str_upper lib method)) as Hbucket.
    cbn [bucket_of dict_get app] in Hbucket. unfold bucket_of in Hbucket.
    destruct (dict_get grouped (str_upper lib method)) as [paths|] eqn:E.
    + cbn [fst snd]. rewrite <- Hbucket. destruct paths as [|p paths]; [|reflexivity].
      exfalso. apply (Hne (str_upper lib method)).
      * apply dict_get_In in E. now apply In_keys in E.
      * unfold bucket_of. now rewrite E.
    + now rewrite <- Hbucket.
  - intros [key paths] w'. unfold list_bucket, bucket_selected. cbn [fst snd].
    destruct (String.eqb_spec method "") as [E|_]; [contradiction|].
    cbn [orb]. destruct (String.eqb (str_upper lib method) key).
    + unfold io_bind. rewrite print_add.
      rewrite (for_io_lines _ (fun path => [("  " ++ path)%string]))
        by (intros; apply print_add).
      rewrite add_stdout_app, flat_map_singleton. reflexivity.
    + unfold ret. now rewrite add_stdout_nil.
Qed.

Lemma list_by_method_filter_witness :
  list_by_method literal_lib sample_endpoints (Some "post") empty_world
  = (Ok tt,
     mk_world [(nl ++ "Endpoints by Method:")%string; (nl ++ "POST:")%string;
               "  /calls"] [] []).
Proof.
  apply (list_by_method_filter literal_lib sample_endpoints "post" empty_world).
  - discriminate.
  - exact sample_endpoints_dicts.
Defined.

(** ** show_category_details: the three cases *)

Lemma group_by_tag_loop (endpoints : dict) (tag : value) :
  forall grouped grouped',
    for_each (fun grouped entry =>
                methods <- py_items (snd entry) ;;
                for_each (add_method_tags (fst entry)) methods grouped)
             endpoints grouped = Ok grouped' ->
    bucket_get grouped' tag
    = bucket_get grouped tag ++ records_of_tag (tag_records endpoints) tag.
Proof.
  induction endpoints as [|[path methods] endpoints IH]; intros g g';
    cbn [for_each].
  - intros [= <-]. cbn. now rewrite app_nil_r.
  - cbn [fst snd]. destruct methods as [| | | | |items]; try discriminate.
    cbn [py_items bind].
    destruct (for_each (add_method_tags path) items g) as [g1|e] eqn:E;
      [|discriminate].
    cbn [bind]. intros H. rewrite (IH _ _ H).
    rewrite (add_methods_tag_records _ _ _ _ E tag).
    unfold tag_records. cbn [flat_map fst snd].
    now rewrite records_of_tag_app, app_assoc.
Qed.

Lemma method_tag_records_path (path : string) (entry : string * value)
  (tag : value) (record : tag_record) :
  In (tag, record) (method_tag_records path entry) -> rec_path record = path.
Proof.
  unfold method_tag_records.
  destruct (py_get (snd entry) "tags" (VList [VStr "untagged"])) as [tags|e];
    [|intros []].
  destruct (py_iter tags) as [l|e]; [|intros []].
  destruct (py_getitem (snd entry) "summary") as [summary|e]; [|intros []].
  intros H. apply in_map_iff in H. destruct H as (t & E & _).
  now injection E as _ <-.
Qed.

Lemma records_of_tag_path (endpoints : dict) (tag : value) (record : tag_record) :
  In record (records_of_tag (tag_records endpoints) tag) ->
  exists methods, In (rec_path record, VDict methods) endpoints.
Proof.
  unfold records_of_tag. intros H. apply in_map_iff in H.
  destruct H as ([t r] & E & H). cbn [snd] in E. subst r.
  apply filter_In in H. destruct H as [H _].
  unfold tag_records in H. apply in_flat_map in H.
  destruct H as ([path methods] & HI & H). cbn [fst snd] in H.
  destruct methods as [| | | | |methods]; try contradiction.
  apply in_flat_map in H. destruct H as (entry & _ & H).
  apply method_tag_records_path in H. exists methods. now rewrite H.
Qed.

Lemma extract_method_nodup (path : string) (endpoints endpoints' : dict)
  (entry : string * value) :
  NoDup (keys endpoints) ->
  extract_method path endpoints entry = Ok endpoints' ->
  NoDup (keys endpoints').
Proof.
  destruct entry as [method operation]. rewrite extract_method_eq.
  intros Hnd. destruct (is_http_method method); [|now intros [= <-]].
  destruct (operation_record operation) as [record|e]; [|discriminate].
  cbn [bind]. unfold set_inner.
  destruct (py_getitem (VDict endpoints) path) as [inner|e]; [|discriminate].
  cbn [bind]. destruct inner as [| | | | |methods]; try discriminate.
  intros [= <-]. now apply NoDup_keys_dict_set.
Qed.

Lemma extract_endpoints_nodup (spec : value) (endpoints : dict) :
  extract_endpoints spec = Ok endpoints -> NoDup (keys endpoints).
Proof.
  unfold extract_endpoints.
  destruct (py_get spec "paths" (VDict [])) as [paths|e]; [|discriminate].
  cbn [bind]. destruct (py_items paths) as [items|e]; [|discriminate].
  cbn [bind]. intros H.
  refine (for_each_invariant (fun s : dict => NoDup (keys s)) _ _ _ _ _ _ H);
    [|constructor].
  clear H. intros s [path path_data] s' Hs. unfold extract_path.
  destruct (py_items path_data) as [item|e]; [|discriminate].
  cbn [bind]. intros H.
  refine (for_each_invariant (fun s : dict => NoDup (keys s)) _ _ _ _ _ _ H).
  - intros s0 x s0'. apply extract_method_nodup.
  - now apply NoDup_keys_dict_set.
Qed.

Lemma print_details_lines (lib : pylib) (endpoints : dict) (methods : dict)
  (endpoint : tag_record) :
  NoDup (keys endpoints) -> detailed endpoints ->
  In (rec_path endpoint, VDict methods) endpoints ->
  prints (print_details lib endpoints endpoint) (detail_lines lib endpoints endpoint).
Proof.
  intros Hnd Hrec HI. pose proof (In_dict_get _ _ _ Hnd HI) as Hget.
  unfold print_details, detail_lines, methods_at, default_get. rewrite Hget.
  cbn [items_of].
  apply (prints_seq _ _ [_] (_ :: _)); [apply prints_print|].
  unfold show_endpoint_details, dict_mem. rewrite Hget. cbn [negb].
  apply (prints_seq _ _ [_]); [apply prints_print|].
  apply prints_lift with methods.
  - unfold py_getitem. rewrite Hget. reflexivity.
  - apply prints_for_io. intros [method details] Hm.
    apply show_method_lines. now apply (Hrec _ _ _ _ HI Hm).
Qed.

(** C8.  For the endpoint map of a document, the tags of the grouping
    that contain the query, both put in lower case by [str.lower], decide
    what is shown.  None: the message and every tag of the grouping,
    sorted.  Two or more: the message and the candidates, and nothing
    else.  One: the heading; then two summary lines for each record the
    tag has among the tag lists of the map, in the order of the paths;
    then for each of these records, in the same order, the separator and
    the details of its path, which are, when the records of the map are
    well formed, the heading of the path and the lines of every method
    the map has for it. *)
Theorem show_category_details_cases (lib : pylib) (spec : value)
  (endpoints : dict) (category : string) (grouped : buckets)
  (matches : list value) (w : world) :
  extract_endpoints spec = Ok endpoints ->
  group_by_tag endpoints = Ok grouped ->
  matching_tags lib category grouped = Ok matches ->
  matches = filter (fun tag => contains (str_lower lib category)
                                        (str_lower lib (tag_text tag)))
                   (map fst grouped) /\
  match matches with
  | [] =>
      show_category_details lib spec endpoints category w
      = (Ok tt,
         add_stdout w
           ([("No category found matching '" ++ category ++ "'")%string;
             (nl ++ "Available categories:")%string]
            ++ map (tag_line lib) (sorted_by tag_text (map fst grouped))))
  | [tag] =>
      let listed := sorted_by rec_path (records_of_tag (tag_records endpoints) tag) in
      Permutation (records_of_tag (tag_records endpoints) tag) listed /\
      Sorted (key_le rec_path) listed /\
      show_category_details lib spec endpoints category w
      = for_io (fun endpoint =>
                  print (nl ++ repeat_string "=" 80 ++ nl) ;;;
                  show_endpoint_details lib endpoints (rec_path endpoint))
          listed
          (add_stdout w
             ([(nl ++ "=== " ++ fmt lib tag ++ " API Endpoints ===" ++ nl)%string;
               "Summary:"]
              ++ flat_map (summary_lines lib) listed
              ++ [(nl ++ "Detailed Specifications:")%string])) /\
      (detailed endpoints ->
       show_category_details lib spec endpoints category w
       = (Ok tt,
          add_stdout w
            ([(nl ++ "=== " ++ fmt lib tag ++ " API Endpoints ===" ++ nl)%string;
              "Summary:"]
             ++ flat_map (summary_lines lib) listed
             ++ [(nl ++ "Detailed Specifications:")%string]
             ++ flat_map (detail_lines lib endpoints) listed)))
  | _ =>
      show_category_details lib spec endpoints category w
      = (Ok tt,
         add_stdout w
           (("Multiple categories match '" ++ category ++ "':")%string
            :: map (tag_line lib) matches))
  end.
Proof.
  intros Hex Hg Hm. split; [now apply matching_tags_filter in Hm|].
  assert (Hbucket : forall tag,
             bucket_get grouped tag = records_of_tag (tag_records endpoints) tag).
  { intros tag. unfold group_by_tag in Hg.
    now rewrite (group_by_tag_loop endpoints tag _ _ Hg). }
  unfold show_category_details. unfold io_bind, lift.
  rewrite Hg, Hm.
  destruct matches as [|tag [|tag' rest]].
  - rewrite !print_add, for_io_print_tag.
    now rewrite !add_stdout_app.
  - rewrite Hbucket.
    destruct (sorted_by_spec rec_path (records_of_tag (tag_records endpoints) tag))
      as [Hp Hs].
    cbv zeta. split; [exact Hp|]. split; [exact Hs|].
    rewrite !print_add, for_io_print_summary, print_add.
    rewrite !add_stdout_app. split; [reflexivity|].
    intros Hrec.
    rewrite (for_io_lines_in _ (detail_lines lib endpoints)).
    + rewrite !add_stdout_app. now rewrite <- !app_assoc.
    + intros r w' Hr.
      apply (Permutation_in _ (Permutation_sym Hp)) in Hr.
      destruct (records_of_tag_path _ _ _ Hr) as [methods HI].
      apply (print_details_lines lib endpoints methods r); try assumption.
      now apply extract_endpoints_nodup with spec.
  - rewrite print_add, for_io_print_tag.
    now rewrite add_stdout_app.
Qed.

Lemma directory_endpoints_detailed : detailed directory_endpoints.
Proof.
  intros path methods method details HI Hm. cbn in HI.
  destruct HI as [E|[E|[E|[]]]]; injection E as <- <-;
    destruct Hm as [E|[]]; injection E as <- <-;
    (split; [|split; [|split]]); try discriminate;
    try (intros k H; cbn in H;
         repeat (destruct H as [<-|H]; [reflexivity|]); contradiction);
    try reflexivity.
  intros _. split; [eexists; reflexivity|].
  repeat constructor. eexists; reflexivity.
Qed.

Lemma show_category_details_cases_witness :
  show_category_details literal_lib category_spec category_endpoints "us"
    empty_world
  = (Ok tt, mk_world ["Multiple categories match 'us':"; "- Users"; "- Usage"]
              [] []) /\
  show_category_details literal_lib category_spec category_endpoints "zz"
    empty_world
  = (Ok tt, mk_world ["No category found matching 'zz'";
                      (nl ++ "Available categories:")%string;
                      "- Calls"; "- Usage"; "- Users"] [] []) /\
  show_category_details literal_lib directory_spec directory_endpoints "user"
    empty_world
  = (Ok tt,
     mk_world [(nl ++ "=== Users API Endpoints ===" ++ nl)%string;
               "Summary:";
               "POST /users"; ("  Create user" ++ nl)%string;
               "GET /users/{id}"; ("  Get user" ++ nl)%string;
               (nl ++ "Detailed Specifications:")%string;
               (nl ++ repeat_string "=" 80 ++ nl)%string;
               (nl ++ "Endpoint: /users")%string;
               (nl ++ "Method: POST")%string;
               "Summary: Create user"; "Description: "; "Tags: Users";
               (nl ++ "Responses:")%string; "  201: Created";
               (nl ++ repeat_string "=" 80 ++ nl)%string;
               (nl ++ "Endpoint: /users/{id}")%string;
               (nl ++ "Method: GET")%string;
               "Summary: Get user"; "Description: "; "Tags: Users"] [] []).
Proof.
  split; [|split].
  - exact (proj2 (show_category_details_cases literal_lib category_spec
                    category_endpoints "us" category_buckets
                    [VStr "Users"; VStr "Usage"] empty_world
                    eq_refl eq_refl eq_refl)).
  - exact (proj2 (show_category_details_cases literal_lib category_spec
                    category_endpoints "zz" category_buckets
                    [] empty_world eq_refl eq_refl eq_refl)).
  - exact (proj2 (proj2 (proj2 (proj2
             (show_category_details_cases literal_lib directory_spec
                directory_endpoints "user"
                [(VStr "Users",
                  [mk_tag_record "/users/{id}" "GET" (VStr "Get user");
                   mk_tag_record "/users" "POST" (VStr "Create user")]);
                 (VStr "Calls", [mk_tag_record "/calls" "GET" (VStr "")])]
                [VStr "Users"] empty_world eq_refl eq_refl eq_refl))))
             directory_endpoints_detailed).
Defined.

(** ** Paths without operations *)

Lemma flat_map_filter {A B : Type} (p : A -> bool) (f : A -> B) (l : list A) :
  flat_map (fun x => if p x then [f x] else []) l = map f (filter p l).
Proof.
  induction l as [|x l IH]; [reflexivity|].
  cbn [flat_map filter]. destruct (p x); cbn [map app]; now rewrite IH.
Qed.

Lemma list_method_lines (lib : pylib) (method : option string) (name : string)
  (op : dict) :
  prints (list_method lib method (name, normalized op))
         (if method_selected lib method name
          then [method_listing lib (name, normalized op)] else []).
Proof.
  unfold list_method. apply prints_if; intros _.
  - apply prints_lift with (field (normalized op) "summary"); [reflexivity|].
    apply prints_print.
  - apply prints_ret.
Qed.

Lemma list_endpoint_lines (lib : pylib) (method : option string) (path : string)
  (item : dict) :
  (forall name operation, In (name, operation) item ->
     is_http_method name = true -> is_dict operation) ->
  prints (list_endpoint lib method (path, VDict (extracted_methods item)))
         (listing_lines lib method (path, VDict (extracted_methods item))).
Proof.
  intros Hops. unfold list_endpoint, listing_lines. cbn [fst snd items_of].
  apply (prints_seq _ _ [_]); [apply prints_print|].
  apply prints_lift with (extracted_methods item); [reflexivity|].
  rewrite <- flat_map_filter. apply prints_for_io.
  intros [name record] Hin.
  destruct (sorted_by_spec (@fst string value) (extracted_methods item))
    as [Hperm _].
  apply (Permutation_in _ (Permutation_sym Hperm)) in Hin.
  unfold extracted_methods in Hin. apply in_map_iff in Hin.
  destruct Hin as ([name' operation] & E & Hin). cbn [fst snd] in E.
  injection E as -> <-. apply filter_In in Hin. destruct Hin as [Hin Hm].
  cbn [fst] in Hm. destruct (Hops _ _ Hin Hm) as [op ->].
  cbn [fst record_of]. apply list_method_lines.
Qed.

Lemma fold_left_found (segments : list string) (endpoints : dict) :
  forall found,
    (found <> None \/ exists path, In path (keys endpoints)
                                   /\ path_parts path = segments) ->
    exists methods,
      fold_left (fun found entry =>
                   if list_eq_dec string_dec (path_parts (fst entry)) segments
                   then Some (snd entry) else found)
                endpoints found = Some methods.
Proof.
  induction endpoints as [|[path methods] endpoints IH]; intros found H;
    cbn [fold_left fst snd].
  - destruct H as [H|(path & [] & _)].
    destruct found as [methods|]; [now exists methods|contradiction].
  - apply IH.
    destruct (list_eq_dec string_dec (path_parts path) segments) as [E|Hne].
    + left. discriminate.
    + destruct H as [H|(path' & [<-|HI] & E)].
      * now left.
      * contradiction.
      * right. now exists path'.
Qed.

(** C9, as the code has it.  Every key of [paths] is a key of the
    extracted map, in the same order, and the plain listing prints, after
    its heading, for every path in the order of the paths the line of the
    path and the lines of its methods.  A path item without an HTTP
    method key maps to the empty method map, and the plain listing prints
    the line of the path and no method line for it.  When no path has a
    segment that is the reserved key, the path tree is built and has a
    node for the path that holds a method map; this is the empty map when
    the paths stay distinct once stripped of their slashes. *)
Theorem extract_endpoints_keeps_every_path (lib : pylib) (spec : value)
  (paths : dict) (method : option string) (w : world) :
  paths_of spec paths ->
  exists endpoints,
    extract_endpoints spec = Ok endpoints /\
    keys endpoints = keys paths /\
    list_endpoints lib endpoints method w
    = (Ok tt,
       add_stdout w
         ((nl ++ "Available Endpoints:")%string
          :: flat_map (listing_lines lib method) (sorted_by fst endpoints))) /\
    forall path item,
      In (path, VDict item) paths ->
      (forall key, In key (keys item) -> is_http_method key = false) ->
      dict_get endpoints path = Some (VDict []) /\
      In (path, VDict []) (sorted_by fst endpoints) /\
      listing_lines lib method (path, VDict []) = [(nl ++ path)%string] /\
      (no_reserved_segment endpoints ->
       exists tree methods,
         group_by_path endpoints = Ok tree /\
         tree_methods tree (path_parts path) = Some methods /\
         (distinct_paths endpoints -> methods = VDict [])).
Proof.
  intros Hp. pose proof (extract_endpoints_paths spec paths Hp) as Hex.
  destruct Hp as (_ & Hnd & Hitems).
  eexists. split; [exact Hex|].
  assert (Hkeys : keys (map (fun e => (fst e, extracted_item (snd e))) paths)
                  = keys paths) by apply keys_map_snd.
  split; [exact Hkeys|].
  destruct (sorted_by_spec (@fst string value)
              (map (fun e => (fst e, extracted_item (snd e))) paths))
    as [Hperm _].
  split.
  - unfold list_endpoints.
    apply (prints_seq _ _ [_]); [apply prints_print|].
    apply prints_for_io. intros entry Hin.
    apply (Permutation_in _ (Permutation_sym Hperm)) in Hin.
    apply in_map_iff in Hin. destruct Hin as ([path path_data] & <- & Hin).
    destruct (Hitems _ _ Hin) as (item & -> & _ & Hops).
    cbn [fst snd extracted_item]. now apply list_endpoint_lines.
  - intros path item HI Hnone.
    assert (Hin : In (path, VDict [])
                    (map (fun e => (fst e, extracted_item (snd e))) paths)).
    { apply in_map_iff. exists (path, VDict item). split; [|exact HI].
      cbn [fst snd extracted_item]. now rewrite extracted_methods_none. }
    split; [|split; [|split]].
    + apply In_dict_get; [now rewrite Hkeys|exact Hin].
    + now apply (Permutation_in _ Hperm).
    + reflexivity.
    + intros Hres.
      assert (Hseg : ~ In reserved (path_parts path)).
      { apply Hres. now apply In_keys with (VDict []). }
      destruct (group_by_path_fold _ (VDict []) trie_empty Hres)
        as (tree & Hg & _ & Hm).
      destruct (fold_left_found (path_parts path)
                  (map (fun e => (fst e, extracted_item (snd e))) paths)
                  (tree_methods (VDict []) (path_parts path)))
        as [methods Hfound].
      { right. exists path. split; [now apply In_keys with (VDict [])|reflexivity]. }
      exists tree, methods. split; [exact Hg|].
      split; [now rewrite (Hm _ Hseg)|].
      intros Hdist.
      destruct (group_by_path_methods _ Hdist Hres) as (tree' & Hg' & _ & Hm').
      unfold group_by_path in Hg'. rewrite Hg in Hg'. injection Hg' as <-.
      assert (E : tree_methods tree (path_parts path) = Some (VDict [])).
      { apply Hm'; [exact Hseg|now exists path]. }
      rewrite (Hm _ Hseg), Hfound in E. now injection E.
Qed.

Lemma extract_endpoints_keeps_every_path_witness :
  paths_of sample_spec sample_paths /\
  exists endpoints,
    extract_endpoints sample_spec = Ok endpoints /\
    list_endpoints literal_lib endpoints None empty_world
    = (Ok tt,
       mk_world [(nl ++ "Available Endpoints:")%string;
                 (nl ++ "/calls")%string; "  POST: ";
                 (nl ++ "/health")%string;
                 (nl ++ "/users")%string; "  GET: List users"] [] []) /\
    dict_get endpoints "/health" = Some (VDict []) /\
    exists tree,
      group_by_path endpoints = Ok tree /\
      tree_methods tree ["health"] = Some (VDict []).
Proof.
  split; [exact sample_paths_of|].
  destruct (extract_endpoints_keeps_every_path literal_lib sample_spec
              sample_paths None empty_world sample_paths_of)
    as (endpoints & Hex & _ & Hlist & H).
  assert (E : endpoints = sample_endpoints).
  { pose proof extract_sample as Hs. rewrite Hex in Hs. now injection Hs. }
  exists endpoints. split; [exact Hex|].
  destruct (H "/health" [("$ref", VStr "#/health")]) as (Hget & _ & _ & Htree).
  - cbn. right. right. left. reflexivity.
  - intros key [<-|[]]. reflexivity.
  - split; [rewrite Hlist, E; reflexivity|]. split; [exact Hget|].
    destruct Htree as (tree & methods & Hg & Hm & Hempty).
    + rewrite E. intros path HI. cbn in HI.
      repeat (destruct HI as [<-|HI]; [cbv; intuition discriminate|]).
      contradiction.
    + exists tree. split; [exact Hg|].
      rewrite <- Hempty; [exact Hm|].
      rewrite E. unfold distinct_paths. cbv. nodup_keys.
Defined.

(** C9, as the specification words it, fails: a path item without
    operations whose path goes through the reserved key of an earlier
    path is kept by [extract_endpoints] with the empty method map, but
    the path tree is not built, so that the path has no node in it. *)
Lemma path_tree_raises_on_reserved_segment :
  ~ (forall spec paths path item,
       paths_of spec paths ->
       In (path, VDict item) paths ->
       (forall key, In key (keys item) -> is_http_method key = false) ->
       exists endpoints tree methods,
         extract_endpoints spec = Ok endpoints /\
         group_by_path endpoints = Ok tree /\
         tree_methods tree (path_parts path) = Some methods).
Proof.
  intros H.
  destruct (H reserved_spec
              [("/a", VDict [("get", VDict [])]);
               ("/a/_methods/get/summary", VDict [])]
              "/a/_methods/get/summary" [])
    as (endpoints & tree & methods & Hex & Hg & _).
  - split; [reflexivity|]. split; [nodup_keys|].
    intros path path_data HI. cbn in HI.
    destruct HI as [E|[E|[]]]; injection E as <- <-.
    + eexists. split; [reflexivity|]. split; [nodup_keys|].
      intros name operation [E|[]] _. injection E as <- <-. now eexists.
    + eexists. split; [reflexivity|]. split; [constructor|]. intros ? ? [].
  - right. left. reflexivity.
  - intros key [].
  - assert (Hex' : extract_endpoints reserved_spec = Ok reserved_endpoints)
      by reflexivity.
    rewrite Hex in Hex'. injection Hex' as ->.
    assert (Hg' : group_by_path reserved_endpoints = Raise TypeError)
      by reflexivity.
    rewrite Hg in Hg'. discriminate.
Qed.
